(** * ssgui: the image-based widgets of [ssgui.hpp], embedded in Rocq

    The header defines the interaction state machine [Clickable<T>] and the
    widgets built on it ([Knob], [Slider], [LineEdit]).  This file embeds the
    implementation part of the header (the code under [SSGUI_IMPL]) function
    by function and proves the properties its specification states.

    Conventions of the embedding.
    - [float] is IEEE-754 binary32, through the Standard Library's
      [SpecFloat] operations at precision 24 and maximal exponent 128, so
      rounding, infinities and NaN are those of the C++ program.  The few
      computations the program performs in [double] ([pow], [sqrt]) use the
      same operations at precision 53 and maximal exponent 1024.
    - [int] and [unsigned] are [Z], with the wrap-around written out.
    - A member function that can stop on [assert] or dereferences a pointer
      that may be null returns an [outcome]; every other one is a total
      function from the object to the updated object.
    - The callbacks are [std::function<void()>] objects; the model names them
      and records every invocation in the ghost field [fired].
    - The classes of SFML the header uses ([sf::Transformable], the shapes,
      [sf::Sprite], [sf::Text], [sf::Event]) are modelled by what the header
      reads and writes of them, for unrotated objects. *)

From Stdlib Require Import ZArith List Bool Lia SpecFloat.
Import ListNotations.
Local Open Scope Z_scope.

Set Implicit Arguments.

(** ** Results of member functions that can stop *)

Inductive outcome (A : Type) : Type :=
| Done (a : A)          (* the call returns *)
| AssertFailed          (* an [assert] of the header fails: abort *)
| Undefined.            (* null dereference or division by zero *)

Arguments Done {A} a.
Arguments AssertFailed {A}.
Arguments Undefined {A}.

Definition obind {A B : Type} (x : outcome A) (f : A -> outcome B) : outcome B :=
  match x with
  | Done a => f a
  | AssertFailed => AssertFailed
  | Undefined => Undefined
  end.

Definition assert (b : bool) : outcome unit :=
  if b then Done tt else AssertFailed.

Declare Scope outcome_scope.
Delimit Scope outcome_scope with outcome.
Notation "x <- c ;; k" := (obind c (fun x => k))
  (at level 61, c at next level, right associativity) : outcome_scope.
Notation "c ;;; k" := (obind c (fun _ => k))
  (at level 61, right associativity) : outcome_scope.

(** ** Machine numbers *)

Module F32.

Definition float : Type := spec_float.

Definition prec : Z := 24.
Definition emax : Z := 128.

Definition add : float -> float -> float := SFadd prec emax.
Definition sub : float -> float -> float := SFsub prec emax.
Definition mul : float -> float -> float := SFmul prec emax.
Definition div : float -> float -> float := SFdiv prec emax.
Definition ltb : float -> float -> bool := SFltb.
Definition leb : float -> float -> bool := SFleb.

Definition is_nan (x : float) : bool :=
  match x with S754_nan => true | _ => false end.

(** Conversion of an integer, rounding to nearest even. *)
Definition of_Z (z : Z) : float := binary_normalize prec emax z 0 false.

Definition zero : float := of_Z 0.
Definition one : float := of_Z 1.
Definition two : float := of_Z 2.
Definition minus_one : float := of_Z (-1).
Definition half : float := div one two.                (* 0.5f *)

(** [fmin] and [fmax] of <cmath>: a NaN argument is dropped. *)
Definition fmin (x y : float) : float :=
  if is_nan x then y
  else if is_nan y then x
  else if leb x y then x else y.

Definition fmax (x y : float) : float :=
  if is_nan x then y
  else if is_nan y then x
  else if leb y x then x else y.

(** Integer part, towards zero; [None] for NaN and the infinities. *)
Definition trunc (x : float) : option Z :=
  match x with
  | S754_zero _ => Some 0
  | S754_finite s m e => Some (cond_Zopp s (Z.shiftl (Zpos m) e))
  | _ => None
  end.

(** [static_cast<unsigned>(x)].  In range it is the integer part.  Out of
    range C++ leaves the conversion undefined; the model takes what the
    64-bit truncating conversion of x86-64 followed by the 32-bit move
    yields. *)
Definition to_unsigned (x : float) : Z :=
  match trunc x with
  | Some z => if (- 2 ^ 63 <=? z) && (z <? 2 ^ 63) then z mod 2 ^ 32 else 0
  | None => 0
  end.

(** Conversion to [int] (the arguments of [sf::IntRect]); out of range
    the x86 conversion yields the smallest [int]. *)
Definition to_int (x : float) : Z :=
  match trunc x with
  | Some z => if (- 2 ^ 31 <=? z) && (z <? 2 ^ 31) then z else - 2 ^ 31
  | None => - 2 ^ 31
  end.

(** [roundf]: nearest integer, halfway cases away from zero. *)
Definition roundf (x : float) : float :=
  match x with
  | S754_finite s m e =>
      if 0 <=? e then x
      else binary_normalize prec emax
             (cond_Zopp s ((Z.shiftl (Zpos m) (e + 1) + 1) / 2)) 0 s
  | _ => x
  end.

End F32.

Module F64.

Definition prec : Z := 53.
Definition emax : Z := 1024.

Definition add : spec_float -> spec_float -> spec_float := SFadd prec emax.
Definition mul : spec_float -> spec_float -> spec_float := SFmul prec emax.
Definition sqrt : spec_float -> spec_float := SFsqrt prec emax.

(** Promotion of a [float]: the same number, in the [double] format. *)
Definition of_float (x : F32.float) : spec_float :=
  match x with
  | S754_finite s m e => binary_round prec emax s m e
  | _ => x
  end.

(** Conversion back to [float], rounding to nearest even. *)
Definition to_float (x : spec_float) : F32.float :=
  match x with
  | S754_finite s m e => binary_round F32.prec F32.emax s m e
  | _ => x
  end.

End F64.

Definition float : Type := F32.float.

(** [unsigned] arithmetic is modulo 2^32; an [unsigned] read as [int]. *)
Definition wrap_unsigned (z : Z) : Z := z mod 2 ^ 32.
Definition unsigned_to_int (z : Z) : Z :=
  let u := z mod 2 ^ 32 in if u <? 2 ^ 31 then u else u - 2 ^ 32.

(** [static_cast<char>] of a 32-bit code: the low byte, read as a signed or
    an unsigned byte as the platform's [char] is. *)
Definition to_char (char_is_signed : bool) (u : Z) : Z :=
  let b := u mod 256 in
  if char_is_signed && (128 <=? b) then b - 256 else b.

(** ** The parts of SFML the header uses *)

Record Vector2f : Type := { vx : float; vy : float }.
Record Vector2i : Type := { ix : Z; iy : Z }.
Record Vector2u : Type := { ux : Z; uy : Z }.
Record FloatRect : Type :=
  { left : float; top : float; width : float; height : float }.
Record IntRect : Type :=
  { ileft : Z; itop : Z; iwidth : Z; iheight : Z }.

(** [sf::Transformable]: the header reads and writes position, scale and
    origin only; the rotation stays at its initial zero. *)
Record Transformable : Type :=
  { position : Vector2f; scale : Vector2f; origin : Vector2f }.

Definition identity_transformable : Transformable :=
  {| position := {| vx := F32.zero; vy := F32.zero |};
     scale := {| vx := F32.one; vy := F32.one |};
     origin := {| vx := F32.zero; vy := F32.zero |} |}.

(** Objects that carry a transform and local bounds: what [centerOrigin],
    [setPosition] and [setScale] need of their argument. *)
Class Bounded (T : Type) : Type :=
  { getTransformable : T -> Transformable;
    setTransformable : Transformable -> T -> T;
    getLocalBounds : T -> FloatRect }.

Definition getPosition {T} `{Bounded T} (o : T) : Vector2f :=
  position (getTransformable o).
Definition getScale {T} `{Bounded T} (o : T) : Vector2f :=
  scale (getTransformable o).
Definition getOrigin {T} `{Bounded T} (o : T) : Vector2f :=
  origin (getTransformable o).

Definition setPosition {T} `{Bounded T} (p : Vector2f) (o : T) : T :=
  let t := getTransformable o in
  setTransformable {| position := p; scale := scale t; origin := origin t |} o.
Definition setScale {T} `{Bounded T} (s : Vector2f) (o : T) : T :=
  let t := getTransformable o in
  setTransformable {| position := position t; scale := s; origin := origin t |} o.
Definition setOrigin {T} `{Bounded T} (g : Vector2f) (o : T) : T :=
  let t := getTransformable o in
  setTransformable {| position := position t; scale := scale t; origin := g |} o.

(** [std::min] and [std::max] on [float]. *)
Definition std_min (a b : float) : float := if F32.ltb b a then b else a.
Definition std_max (a b : float) : float := if F32.ltb a b then b else a.

(** [getTransform().transformRect(r)] of an unrotated object: a local
    abscissa [x] goes to [scale.x * x + (-origin.x * scale.x + position.x)],
    and the result is the bounding rectangle of the transformed corners. *)
Definition transform_x (t : Transformable) (x : float) : float :=
  F32.add (F32.mul (vx (scale t)) x)
          (F32.add (F32.mul (SFopp (vx (origin t))) (vx (scale t))) (vx (position t))).
Definition transform_y (t : Transformable) (y : float) : float :=
  F32.add (F32.mul (vy (scale t)) y)
          (F32.add (F32.mul (SFopp (vy (origin t))) (vy (scale t))) (vy (position t))).

Definition transformRect (t : Transformable) (r : FloatRect) : FloatRect :=
  let x0 := transform_x t (left r) in
  let x1 := transform_x t (F32.add (left r) (width r)) in
  let y0 := transform_y t (top r) in
  let y1 := transform_y t (F32.add (top r) (height r)) in
  let l := std_min x0 x1 in
  let r' := std_max x0 x1 in
  let t' := std_min y0 y1 in
  let b := std_max y0 y1 in
  {| left := l; top := t'; width := F32.sub r' l; height := F32.sub b t' |}.

Definition getGlobalBounds {T} `{Bounded T} (o : T) : FloatRect :=
  transformRect (getTransformable o) (getLocalBounds o).

(** [sf::FloatRect::contains]. *)
Definition FloatRect_contains (r : FloatRect) (p : Vector2f) : bool :=
  let minX := std_min (left r) (F32.add (left r) (width r)) in
  let maxX := std_max (left r) (F32.add (left r) (width r)) in
  let minY := std_min (top r) (F32.add (top r) (height r)) in
  let maxY := std_max (top r) (F32.add (top r) (height r)) in
  F32.leb minX (vx p) && F32.ltb (vx p) maxX
  && F32.leb minY (vy p) && F32.ltb (vy p) maxY.

(** [static_cast<sf::Vector2f>(point)]. *)
Definition Vector2f_of_Vector2i (p : Vector2i) : Vector2f :=
  {| vx := F32.of_Z (ix p); vy := F32.of_Z (iy p) |}.

(** [sf::CircleShape]: its transform, its radius and the local bounds SFML
    caches for it. *)
Record CircleShape : Type :=
  { circle_transform : Transformable;
    getRadius : float;
    circle_bounds : FloatRect }.

(** [sf::RectangleShape]: its transform, its size and the cached bounds. *)
Record RectangleShape : Type :=
  { rectangle_transform : Transformable;
    getSize : Vector2f;
    rectangle_bounds : FloatRect }.

(** [sf::RectangleShape(size)]: a rectangle without outline. *)
Definition RectangleShape_new (size : Vector2f) : RectangleShape :=
  {| rectangle_transform := identity_transformable;
     getSize := size;
     rectangle_bounds :=
       {| left := F32.zero; top := F32.zero;
          width := vx size; height := vy size |} |}.

(** [sf::Sprite]: its transform, the bound texture (null, or the size of the
    image) and the texture rectangle. *)
Record Sprite : Type :=
  { sprite_transform : Transformable;
    getTexture : option Vector2u;
    getTextureRect : IntRect }.

Definition setTextureRect (r : IntRect) (s : Sprite) : Sprite :=
  {| sprite_transform := sprite_transform s;
     getTexture := getTexture s;
     getTextureRect := r |}.

(** [sf::Sprite()]. *)
Definition Sprite_default : Sprite :=
  {| sprite_transform := identity_transformable;
     getTexture := None;
     getTextureRect := {| ileft := 0; itop := 0; iwidth := 0; iheight := 0 |} |}.

(** [sf::Text]: its transform, its string (UTF-32 code points) and the
    layout of its font, which gives the local bounds of a string. *)
Record Text : Type :=
  { text_transform : Transformable;
    getString : list Z;
    text_layout : list Z -> FloatRect }.

Definition setString (s : list Z) (t : Text) : Text :=
  {| text_transform := text_transform t;
     getString := s;
     text_layout := text_layout t |}.

(** [sf::Text()]. *)
Definition Text_default : Text :=
  {| text_transform := identity_transformable;
     getString := [];
     text_layout := fun _ =>
       {| left := F32.zero; top := F32.zero;
          width := F32.zero; height := F32.zero |} |}.

#[export] Instance Bounded_CircleShape : Bounded CircleShape :=
  {| getTransformable := circle_transform;
     setTransformable := fun t c =>
       {| circle_transform := t; getRadius := getRadius c;
          circle_bounds := circle_bounds c |};
     getLocalBounds := circle_bounds |}.

#[export] Instance Bounded_RectangleShape : Bounded RectangleShape :=
  {| getTransformable := rectangle_transform;
     setTransformable := fun t r =>
       {| rectangle_transform := t; getSize := getSize r;
          rectangle_bounds := rectangle_bounds r |};
     getLocalBounds := rectangle_bounds |}.

#[export] Instance Bounded_Sprite : Bounded Sprite :=
  {| getTransformable := sprite_transform;
     setTransformable := fun t s =>
       {| sprite_transform := t; getTexture := getTexture s;
          getTextureRect := getTextureRect s |};
     getLocalBounds := fun s =>
       {| left := F32.zero; top := F32.zero;
          width := F32.of_Z (Z.abs (iwidth (getTextureRect s)));
          height := F32.of_Z (Z.abs (iheight (getTextureRect s))) |} |}.

#[export] Instance Bounded_Text : Bounded Text :=
  {| getTransformable := text_transform;
     setTransformable := fun t x =>
       {| text_transform := t; getString := getString x;
          text_layout := text_layout x |};
     getLocalBounds := fun x => text_layout x (getString x) |}.

(** [sf::Event]: the type tag and the members of the union the header reads. *)
Inductive EventType : Type :=
| Closed | Resized | LostFocus | GainedFocus
| TextEntered | KeyPressed | KeyReleased
| MouseWheelMoved | MouseWheelScrolled
| MouseButtonPressed | MouseButtonReleased
| MouseMoved | MouseEntered | MouseLeft.

Inductive MouseButton : Type := Left | Right | Middle | XButton1 | XButton2.
Inductive MouseWheel : Type := VerticalWheel | HorizontalWheel.

Record Event : Type :=
  { type : EventType;
    mouseButton_button : MouseButton;
    mouseWheelScroll_wheel : MouseWheel;
    mouseWheelScroll_delta : float;
    mouseMove_y : Z;
    text_unicode : Z;
    key_code : Z }.

(** [sf::Keyboard::Backspace] in SFML 2. *)
Definition Keyboard_Backspace : Z := 59.

Definition EventType_eqb (a b : EventType) : bool :=
  match a, b with
  | Closed, Closed | Resized, Resized | LostFocus, LostFocus
  | GainedFocus, GainedFocus | TextEntered, TextEntered
  | KeyPressed, KeyPressed | KeyReleased, KeyReleased
  | MouseWheelMoved, MouseWheelMoved | MouseWheelScrolled, MouseWheelScrolled
  | MouseButtonPressed, MouseButtonPressed
  | MouseButtonReleased, MouseButtonReleased
  | MouseMoved, MouseMoved | MouseEntered, MouseEntered
  | MouseLeft, MouseLeft => true
  | _, _ => false
  end.

Definition MouseButton_eqb (a b : MouseButton) : bool :=
  match a, b with
  | Left, Left | Right, Right | Middle, Middle
  | XButton1, XButton1 | XButton2, XButton2 => true
  | _, _ => false
  end.

Definition MouseWheel_eqb (a b : MouseWheel) : bool :=
  match a, b with
  | VerticalWheel, VerticalWheel | HorizontalWheel, HorizontalWheel => true
  | _, _ => false
  end.

(** ** namespace ss *)

Inductive State : Type := Idle | Hover | Hit.
Inductive SliderType : Type := Horizontal | Vertical.

Definition State_eqb (a b : State) : bool :=
  match a, b with
  | Idle, Idle | Hover, Hover | Hit, Hit => true
  | _, _ => false
  end.

Definition KnobDragSensitivity : float := F32.div (F32.of_Z 1) (F32.of_Z 100).
Definition KnobScrollSensitivity : float := F32.div (F32.of_Z 1) (F32.of_Z 10).
Definition KnobMaxMouseWheelScrollDelta : float := F32.div (F32.of_Z 1) (F32.of_Z 10).
Definition KnobMaxMouseMoveDelta : float := F32.div (F32.of_Z 1) (F32.of_Z 10).

(** A callback is an opaque action; [Noop] is the empty lambda the
    constructor installs. *)
Inductive Callback : Type := Noop | Action (id : nat).

(** [Callback mCallbacks[StateCount]], indexed by the state. *)
Record Callbacks : Type :=
  { on_Idle : Callback; on_Hover : Callback; on_Hit : Callback }.

Definition callback_at (t : Callbacks) (s : State) : Callback :=
  match s with Idle => on_Idle t | Hover => on_Hover t | Hit => on_Hit t end.

Definition callback_set (t : Callbacks) (s : State) (f : Callback) : Callbacks :=
  match s with
  | Idle => {| on_Idle := f; on_Hover := on_Hover t; on_Hit := on_Hit t |}
  | Hover => {| on_Idle := on_Idle t; on_Hover := f; on_Hit := on_Hit t |}
  | Hit => {| on_Idle := on_Idle t; on_Hover := on_Hover t; on_Hit := f |}
  end.

(** [centerOrigin]: the origin goes to the corner of the local bounds plus
    half of their truncated extent (an [unsigned] division). *)
Definition centerOrigin {T} `{Bounded T} (object : T) : T :=
  let rect := getLocalBounds object in
  setOrigin
    {| vx := F32.add (left rect) (F32.of_Z (F32.to_unsigned (width rect) / 2));
       vy := F32.add (top rect) (F32.of_Z (F32.to_unsigned (height rect) / 2)) |}
    object.

(** [distance], at the one instance the header uses: an integer point and a
    [float] point.  The differences are [float]; [pow] and [sqrt] work in
    [double]; the result is converted to the [float] return type. *)
Definition distance (a : Vector2i) (b : Vector2f) : float :=
  let dx := F64.of_float (F32.sub (F32.of_Z (ix a)) (vx b)) in
  let dy := F64.of_float (F32.sub (F32.of_Z (iy a)) (vy b)) in
  F64.to_float (F64.sqrt (F64.add (F64.mul dx dx) (F64.mul dy dy))).

(** [contains], the generic template. *)
Definition contains_bounds {T} `{Bounded T} (shape : T) (point : Vector2i) : bool :=
  FloatRect_contains (getGlobalBounds shape) (Vector2f_of_Vector2i point).

(** [contains<sf::CircleShape>], the specialization. *)
Definition contains_circle (shape : CircleShape) (point : Vector2i) : bool :=
  F32.ltb (distance point (getPosition shape)) (getRadius shape).

(** The collision shapes: [contains] resolves to the specialization for a
    circle and to the generic template otherwise. *)
Class Collidable (T : Type) : Type :=
  { contains : T -> Vector2i -> bool }.

#[export] Instance Collidable_CircleShape : Collidable CircleShape :=
  {| contains := contains_circle |}.
#[export] Instance Collidable_RectangleShape : Collidable RectangleShape :=
  {| contains := contains_bounds |}.
#[export] Instance Collidable_Sprite : Collidable Sprite :=
  {| contains := contains_bounds |}.

(** *** Clickable<T> *)

Record Clickable (T : Type) : Type :=
  { widget_transform : Transformable;   (* the sf::Transformable base *)
    mCollisionShape : T;
    mState : State;
    mCallbacks : Callbacks;
    mFreezed : bool;
    fired : list Callback }.            (* ghost: invocations, oldest first *)

Section ClickableOps.

Context {T : Type} `{Bounded T} `{Collidable T}.

Definition Clickable_new (collisionShape : T) : Clickable T :=
  {| widget_transform := identity_transformable;
     mCollisionShape := collisionShape;
     mState := Idle;
     mCallbacks := {| on_Idle := Noop; on_Hover := Noop; on_Hit := Noop |};
     mFreezed := false;
     fired := [] |}.

Definition with_state (s : State) (c : Clickable T) : Clickable T :=
  {| widget_transform := widget_transform c;
     mCollisionShape := mCollisionShape c;
     mState := s;
     mCallbacks := mCallbacks c;
     mFreezed := mFreezed c;
     fired := fired c |}.

Definition with_shape (sh : T) (c : Clickable T) : Clickable T :=
  {| widget_transform := widget_transform c;
     mCollisionShape := sh;
     mState := mState c;
     mCallbacks := mCallbacks c;
     mFreezed := mFreezed c;
     fired := fired c |}.

Definition with_freezed (b : bool) (c : Clickable T) : Clickable T :=
  {| widget_transform := widget_transform c;
     mCollisionShape := mCollisionShape c;
     mState := mState c;
     mCallbacks := mCallbacks c;
     mFreezed := b;
     fired := fired c |}.

Definition with_transform (t : Transformable) (c : Clickable T) : Clickable T :=
  {| widget_transform := t;
     mCollisionShape := mCollisionShape c;
     mState := mState c;
     mCallbacks := mCallbacks c;
     mFreezed := mFreezed c;
     fired := fired c |}.

Definition Clickable_bind (state : State) (callback : Callback)
    (c : Clickable T) : Clickable T :=
  {| widget_transform := widget_transform c;
     mCollisionShape := mCollisionShape c;
     mState := mState c;
     mCallbacks := callback_set (mCallbacks c) state callback;
     mFreezed := mFreezed c;
     fired := fired c |}.

Definition Clickable_freeze (state : State) (c : Clickable T) : Clickable T :=
  with_freezed true (with_state state c).

Definition Clickable_unfreeze (c : Clickable T) : Clickable T :=
  with_freezed false c.

(** [call]: invoke the callback of the current state. *)
Definition Clickable_call (c : Clickable T) : Clickable T :=
  {| widget_transform := widget_transform c;
     mCollisionShape := mCollisionShape c;
     mState := mState c;
     mCallbacks := mCallbacks c;
     mFreezed := mFreezed c;
     fired := fired c ++ [callback_at (mCallbacks c) (mState c)] |}.

Definition Clickable_handleEvent (c : Clickable T) (event : Event) : Clickable T :=
  if mFreezed c then c
  else if EventType_eqb (type event) MouseButtonPressed then
    if State_eqb (mState c) Hover
       && MouseButton_eqb (mouseButton_button event) Left
    then Clickable_call (with_state Hit c)
    else c
  else if EventType_eqb (type event) MouseButtonReleased then
    if State_eqb (mState c) Hit
       && MouseButton_eqb (mouseButton_button event) Left
    then Clickable_call (with_state Hover c)
    else c
  else c.

(** The first three statements of [update]. *)
Definition track_shape (c : Clickable T) : Clickable T :=
  with_shape
    (centerOrigin
       (setScale (scale (widget_transform c))
          (setPosition (position (widget_transform c)) (mCollisionShape c))))
    c.

(** [update]; [mouse] is [sf::Mouse::getPosition(window)]. *)
Definition Clickable_update (c : Clickable T) (mouse : Vector2i) : Clickable T :=
  let c := track_shape c in
  if mFreezed c then c
  else if State_eqb (mState c) Idle && contains (mCollisionShape c) mouse
  then Clickable_call (with_state Hover c)
  else if State_eqb (mState c) Hover && negb (contains (mCollisionShape c) mouse)
  then Clickable_call (with_state Idle c)
  else c.

Definition Clickable_collisionShape (c : Clickable T) : T := mCollisionShape c.
Definition Clickable_state (c : Clickable T) : State := mState c.
Definition Clickable_freezed (c : Clickable T) : bool := mFreezed c.
Definition Clickable_callback (c : Clickable T) (state : State) : Callback :=
  callback_at (mCallbacks c) state.

(** The inherited [sf::Transformable] setters of the widget. *)
Definition Clickable_setPosition (p : Vector2f) (c : Clickable T) : Clickable T :=
  with_transform
    {| position := p; scale := scale (widget_transform c);
       origin := origin (widget_transform c) |} c.
Definition Clickable_setScale (s : Vector2f) (c : Clickable T) : Clickable T :=
  with_transform
    {| position := position (widget_transform c); scale := s;
       origin := origin (widget_transform c) |} c.

(** The operations of the public interface that can change the object. *)
Inductive Operation : Type :=
| OpBind (state : State) (callback : Callback)
| OpFreeze (state : State)
| OpUnfreeze
| OpHandleEvent (event : Event)
| OpUpdate (mouse : Vector2i)
| OpSetPosition (p : Vector2f)
| OpSetScale (s : Vector2f).

Definition apply_operation (c : Clickable T) (o : Operation) : Clickable T :=
  match o with
  | OpBind s f => Clickable_bind s f c
  | OpFreeze s => Clickable_freeze s c
  | OpUnfreeze => Clickable_unfreeze c
  | OpHandleEvent e => Clickable_handleEvent c e
  | OpUpdate m => Clickable_update c m
  | OpSetPosition p => Clickable_setPosition p c
  | OpSetScale s => Clickable_setScale s c
  end.

(** The calls the host makes every frame. *)
Inductive FrameCall : Type :=
| CallHandleEvent (event : Event)
| CallUpdate (mouse : Vector2i).

Definition apply_call (c : Clickable T) (k : FrameCall) : Clickable T :=
  match k with
  | CallHandleEvent e => Clickable_handleEvent c e
  | CallUpdate m => Clickable_update c m
  end.

Definition run_calls (c : Clickable T) (ks : list FrameCall) : Clickable T :=
  fold_left apply_call ks c.

End ClickableOps.

(** *** Values of Knob and Slider *)

(** [fmax(-1.f, fmin(mValue, 1.f))]. *)
Definition clamp (v : float) : float :=
  F32.fmax F32.minus_one (F32.fmin v F32.one).

(** The value lies in [-1, 1]. *)
Definition in_range (v : float) : bool :=
  F32.leb F32.minus_one v && F32.leb v F32.one.

(** The index of the frame, [roundf((h/w - 1)*(mValue+1.f)/2)], for a
    sheet of [frames] frames: the operands are converted to [float]. *)
Definition frame_index (frames : Z) (value : float) : float :=
  F32.roundf
    (F32.div (F32.mul (F32.of_Z (wrap_unsigned (frames - 1)))
                      (F32.add value F32.one))
             F32.two).

(** The rectangle both widgets select in the sheet of size [size]:
    [top = roundf((h/w - 1)*(mValue+1.f)/2)*w] and [sf::IntRect(0, top, w, w)].
    [h/w] is a division of [unsigned] numbers. *)
Definition sheet_rect (size : Vector2u) (value : float) : outcome IntRect :=
  let w := ux size in
  let h := uy size in
  if w =? 0 then Undefined
  else
    let top := F32.mul (frame_index (h / w) value) (F32.of_Z w) in
    Done {| ileft := 0; itop := F32.to_int top;
            iwidth := unsigned_to_int w; iheight := unsigned_to_int w |}.

(** *** Knob *)

Record Knob : Type :=
  { Knob_base : Clickable CircleShape;
    Knob_mSprite : Sprite;
    Knob_mValue : float;
    mPreviousMouseY : float }.

(** The constructor does not initialise [mValue]: [indeterminate] stands for
    what the member holds then. *)
Definition Knob_new (collisionShape : CircleShape) (sprite : Sprite)
    (indeterminate : float) : Knob :=
  {| Knob_base := Clickable_new collisionShape;
     Knob_mSprite := sprite;
     Knob_mValue := indeterminate;
     mPreviousMouseY := F32.zero |}.

Definition Knob_handleEvent (k : Knob) (event : Event) : Knob :=
  let base := Clickable_handleEvent (Knob_base k) event in
  let v1 :=
    if State_eqb (Clickable_state base) Hover
       && EventType_eqb (type event) MouseWheelScrolled
       && MouseWheel_eqb (mouseWheelScroll_wheel event) VerticalWheel
    then F32.add (Knob_mValue k)
           (F32.fmin (F32.mul (mouseWheelScroll_delta event) KnobScrollSensitivity)
                     KnobMaxMouseWheelScrollDelta)
    else Knob_mValue k in
  let v2 :=
    if State_eqb (Clickable_state base) Hit
       && negb (EventType_eqb (type event) MouseButtonPressed)
    then F32.add v1
           (F32.fmin
              (F32.mul (F32.sub (mPreviousMouseY k) (F32.of_Z (mouseMove_y event)))
                       KnobDragSensitivity)
              KnobMaxMouseMoveDelta)
    else v1 in
  {| Knob_base := base;
     Knob_mSprite := Knob_mSprite k;
     Knob_mValue := clamp v2;
     mPreviousMouseY := mPreviousMouseY k |}.

Definition Knob_textureRect (k : Knob) : outcome IntRect :=
  match getTexture (Knob_mSprite k) with
  | None => AssertFailed
  | Some size => sheet_rect size (Knob_mValue k)
  end.

Definition Knob_update (k : Knob) (mouse : Vector2i) : outcome Knob :=
  let base := Clickable_update (Knob_base k) mouse in
  let k1 := {| Knob_base := base; Knob_mSprite := Knob_mSprite k;
               Knob_mValue := clamp (Knob_mValue k);
               mPreviousMouseY := mPreviousMouseY k |} in
  (rect <- Knob_textureRect k1 ;;
   Done {| Knob_base := base;
           Knob_mSprite :=
             centerOrigin
               (setScale (scale (widget_transform base))
                  (setPosition (position (widget_transform base))
                     (setTextureRect rect (Knob_mSprite k1))));
           Knob_mValue := Knob_mValue k1;
           mPreviousMouseY := F32.of_Z (iy mouse) |})%outcome.

Definition Knob_value (k : Knob) : float := Knob_mValue k.

Definition Knob_draw (k : Knob) : Sprite := Knob_mSprite k.

Definition Knob_setValue (k : Knob) (value : float) : outcome Knob :=
  (assert (F32.leb value F32.one && F32.leb F32.zero value) ;;;
   Done {| Knob_base := Knob_base k;
           Knob_mSprite := Knob_mSprite k;
           Knob_mValue := F32.mul (F32.sub value F32.half) F32.two;
           mPreviousMouseY := mPreviousMouseY k |})%outcome.




(** *** Slider *)

Record Slider : Type :=
  { Slider_base : Clickable RectangleShape;
    Slider_mInitialized : bool;
    Slider_mValue : float;
    Slider_mSprite : Sprite;
    mType : SliderType }.

(** [Slider()]: the placeholder.  [mValue] and [mType] are not initialised. *)
Definition Slider_default (indeterminate : float) (indeterminate_type : SliderType)
    : Slider :=
  {| Slider_base :=
       Clickable_new (RectangleShape_new {| vx := F32.one; vy := F32.one |});
     Slider_mInitialized := false;
     Slider_mValue := indeterminate;
     Slider_mSprite := Sprite_default;
     mType := indeterminate_type |}.

Definition Slider_new (collisionShape : RectangleShape) (sprite : Sprite)
    (type : SliderType) : Slider :=
  {| Slider_base := Clickable_new collisionShape;
     Slider_mInitialized := true;
     Slider_mValue := F32.zero;
     Slider_mSprite := sprite;
     mType := type |}.

Definition Slider_with_base (b : Clickable RectangleShape) (s : Slider) : Slider :=
  {| Slider_base := b;
     Slider_mInitialized := Slider_mInitialized s;
     Slider_mValue := Slider_mValue s;
     Slider_mSprite := Slider_mSprite s;
     mType := mType s |}.

(** The members inherited from [Clickable<sf::RectangleShape>]. *)
Definition Slider_handleEvent (s : Slider) (event : Event) : Slider :=
  Slider_with_base (Clickable_handleEvent (Slider_base s) event) s.
Definition Slider_freeze (state : State) (s : Slider) : Slider :=
  Slider_with_base (Clickable_freeze state (Slider_base s)) s.
Definition Slider_unfreeze (s : Slider) : Slider :=
  Slider_with_base (Clickable_unfreeze (Slider_base s)) s.
Definition Slider_state (s : Slider) : State := Clickable_state (Slider_base s).

Definition Slider_update (s : Slider) (mouse : Vector2i) : outcome Slider :=
  (assert (Slider_mInitialized s) ;;;
   let base := Clickable_update (Slider_base s) mouse in
   let wt := widget_transform base in
   let sprite :=
     centerOrigin (setScale (scale wt) (setPosition (position wt) (Slider_mSprite s))) in
   let v :=
     match mType s with
     | Horizontal =>
         if State_eqb (Clickable_state base) Hit then
           let value :=
             F32.div (F32.sub (F32.of_Z (ix mouse)) (vx (position wt)))
                     (vx (getSize (Clickable_collisionShape base))) in
           F32.div (F32.mul value F32.two) (vx (scale wt))
         else Slider_mValue s
     | Vertical =>
         if State_eqb (Clickable_state base) Hit then
           let value :=
             F32.div (F32.sub (vy (position wt)) (F32.of_Z (iy mouse)))
                     (vy (getSize (Clickable_collisionShape base))) in
           F32.div (F32.mul value F32.two) (vy (scale wt))
         else Slider_mValue s
     end in
   let v := clamp v in
   match getTexture sprite with
   | None => Undefined
   | Some size =>
       rect <- sheet_rect size v ;;
       Done {| Slider_base := base;
               Slider_mInitialized := Slider_mInitialized s;
               Slider_mValue := v;
               Slider_mSprite := setTextureRect rect sprite;
               mType := mType s |}
   end)%outcome.

Definition Slider_value (s : Slider) : outcome float :=
  (assert (Slider_mInitialized s) ;;; Done (Slider_mValue s))%outcome.

Definition Slider_setValue (s : Slider) (value : float) : outcome Slider :=
  (assert (Slider_mInitialized s) ;;;
   Done {| Slider_base := Slider_base s;
           Slider_mInitialized := Slider_mInitialized s;
           Slider_mValue := value;
           Slider_mSprite := Slider_mSprite s;
           mType := mType s |})%outcome.

(** [draw] hands the sprite to the render target. *)
Definition Slider_draw (s : Slider) : outcome Sprite :=
  (assert (Slider_mInitialized s) ;;; Done (Slider_mSprite s))%outcome.

Inductive SliderCall : Type :=
| SliderHandleEvent (event : Event)
| SliderUpdate (mouse : Vector2i)
| SliderSetValue (value : float).

Definition Slider_call (s : Slider) (c : SliderCall) : outcome Slider :=
  match c with
  | SliderHandleEvent e => Done (Slider_handleEvent s e)
  | SliderUpdate m => Slider_update s m
  | SliderSetValue v => Slider_setValue s v
  end.

Fixpoint Slider_run (s : Slider) (cs : list SliderCall) : outcome Slider :=
  match cs with
  | [] => Done s
  | c :: cs' => (s' <- Slider_call s c ;; Slider_run s' cs')%outcome
  end.

(** *** LineEdit *)

Record LineEdit : Type :=
  { LineEdit_base : Clickable RectangleShape;
    LineEdit_mInitialized : bool;
    mText : Text }.

Definition LineEdit_default : LineEdit :=
  {| LineEdit_base :=
       Clickable_new (RectangleShape_new {| vx := F32.one; vy := F32.one |});
     LineEdit_mInitialized := false;
     mText := Text_default |}.

Definition LineEdit_new (collisionShape : RectangleShape) (text : Text) : LineEdit :=
  {| LineEdit_base := Clickable_new collisionShape;
     LineEdit_mInitialized := true;
     mText := text |}.

Definition LineEdit_with_base (b : Clickable RectangleShape) (l : LineEdit) : LineEdit :=
  {| LineEdit_base := b;
     LineEdit_mInitialized := LineEdit_mInitialized l;
     mText := mText l |}.

(** The members inherited from [Clickable<sf::RectangleShape>]. *)
Definition LineEdit_freeze (state : State) (l : LineEdit) : LineEdit :=
  LineEdit_with_base (Clickable_freeze state (LineEdit_base l)) l.
Definition LineEdit_state (l : LineEdit) : State := Clickable_state (LineEdit_base l).

Section LineEditEvents.

(** Whether [char] is a signed type is the platform's choice. *)
Variable char_is_signed : bool.

Definition LineEdit_handleEvent (l : LineEdit) (event : Event) : outcome LineEdit :=
  (assert (LineEdit_mInitialized l) ;;;
   let base := Clickable_handleEvent (LineEdit_base l) event in
   if State_eqb (Clickable_state base) Hover then
     let text1 :=
       if EventType_eqb (type event) TextEntered
          && (32 <=? to_char char_is_signed (text_unicode event))
       then setString (getString (mText l) ++ [text_unicode event]) (mText l)
       else mText l in
     let text2 :=
       if EventType_eqb (type event) KeyPressed then
         if (key_code event =? Keyboard_Backspace)
            && (0 <? Z.of_nat (length (getString text1)))
         then setString (removelast (getString text1)) text1
         else text1
       else text1 in
     Done {| LineEdit_base := base;
             LineEdit_mInitialized := LineEdit_mInitialized l;
             mText := text2 |}
   else Done (LineEdit_with_base base l))%outcome.

End LineEditEvents.

Definition LineEdit_update (l : LineEdit) (mouse : Vector2i) : outcome LineEdit :=
  (assert (LineEdit_mInitialized l) ;;;
   let base := Clickable_update (LineEdit_base l) mouse in
   let wt := widget_transform base in
   Done {| LineEdit_base := base;
           LineEdit_mInitialized := LineEdit_mInitialized l;
           mText :=
             centerOrigin
               (setScale (scale wt) (setPosition (position wt) (mText l))) |})%outcome.

Definition LineEdit_setString (l : LineEdit) (string : list Z) : outcome LineEdit :=
  (assert (LineEdit_mInitialized l) ;;;
   Done {| LineEdit_base := LineEdit_base l;
           LineEdit_mInitialized := LineEdit_mInitialized l;
           mText := setString string (mText l) |})%outcome.

Definition LineEdit_string (l : LineEdit) : outcome (list Z) :=
  (assert (LineEdit_mInitialized l) ;;; Done (getString (mText l)))%outcome.

Definition LineEdit_draw (l : LineEdit) : outcome Text :=
  (assert (LineEdit_mInitialized l) ;;; Done (mText l))%outcome.

(** *** Button *)

(** [sf::Sprite mSprites[StateCount]], indexed by the state. *)
Record Sprites : Type :=
  { sprite_Idle : Sprite; sprite_Hover : Sprite; sprite_Hit : Sprite }.

Definition sprite_at (t : Sprites) (s : State) : Sprite :=
  match s with
  | Idle => sprite_Idle t
  | Hover => sprite_Hover t
  | Hit => sprite_Hit t
  end.

Record Button : Type :=
  { Button_base : Clickable Sprite;
    mSprites : Sprites }.

(** The collision shape is a copy of the sprite of the idle state. *)
Definition Button_new (idle hover hit : Sprite) : Button :=
  {| Button_base := Clickable_new idle;
     mSprites := {| sprite_Idle := idle; sprite_Hover := hover; sprite_Hit := hit |} |}.

Definition Button_sprite (b : Button) (state : State) : Sprite :=
  sprite_at (mSprites b) state.

(** [Button::update]: the state machine, then every sprite takes the
    position and the scale of the widget and is centred. *)
Definition Button_update (b : Button) (mouse : Vector2i) : Button :=
  let base := Clickable_update (Button_base b) mouse in
  let wt := widget_transform base in
  let place (sprite : Sprite) : Sprite :=
    centerOrigin (setScale (scale wt) (setPosition (position wt) sprite)) in
  {| Button_base := base;
     mSprites :=
       {| sprite_Idle := place (sprite_Idle (mSprites b));
          sprite_Hover := place (sprite_Hover (mSprites b));
          sprite_Hit := place (sprite_Hit (mSprites b)) |} |}.

(** The member inherited from [Clickable<sf::Sprite>]. *)
Definition Button_handleEvent (b : Button) (event : Event) : Button :=
  {| Button_base := Clickable_handleEvent (Button_base b) event;
     mSprites := mSprites b |}.

Definition Button_state (b : Button) : State := Clickable_state (Button_base b).

(** [draw] hands the sprite of the current state to the render target. *)
Definition Button_draw (b : Button) : Sprite :=
  sprite_at (mSprites b) (Button_state b).

Inductive ButtonCall : Type :=
| ButtonHandleEvent (event : Event)
| ButtonUpdate (mouse : Vector2i).

Definition Button_call (b : Button) (c : ButtonCall) : Button :=
  match c with
  | ButtonHandleEvent e => Button_handleEvent b e
  | ButtonUpdate m => Button_update b m
  end.

Definition Button_run (b : Button) (cs : list ButtonCall) : Button :=
  fold_left Button_call cs b.

(** [LineEdit::handleEvent] and [LineEdit::update] in sequence. *)
Inductive LineEditCall : Type :=
| LineEditHandleEvent (event : Event)
| LineEditUpdate (mouse : Vector2i)
| LineEditSetString (string : list Z).

Definition LineEdit_call (char_is_signed : bool) (l : LineEdit) (c : LineEditCall)
    : outcome LineEdit :=
  match c with
  | LineEditHandleEvent e => LineEdit_handleEvent char_is_signed l e
  | LineEditUpdate m => LineEdit_update l m
  | LineEditSetString s => LineEdit_setString l s
  end.

Fixpoint LineEdit_run (char_is_signed : bool) (l : LineEdit) (cs : list LineEditCall)
    : outcome LineEdit :=
  match cs with
  | [] => Done l
  | c :: cs' =>
      (l' <- LineEdit_call char_is_signed l c ;;
       LineEdit_run char_is_signed l' cs')%outcome
  end.

(** ** Vocabulary of the statements *)

(** A press or a release of the primary (left) button. *)
Definition primary_press (e : Event) : bool :=
  EventType_eqb (type e) MouseButtonPressed
  && MouseButton_eqb (mouseButton_button e) Left.
Definition primary_release (e : Event) : bool :=
  EventType_eqb (type e) MouseButtonReleased
  && MouseButton_eqb (mouseButton_button e) Left.

(** Whether the pointer is inside the collision shape as [update] sees it,
    that is once the shape tracks the widget. *)
Definition pointer_inside {T} `{Bounded T} `{Collidable T}
    (c : Clickable T) (mouse : Vector2i) : bool :=
  contains (mCollisionShape (track_shape c)) mouse.

(** The four moves between adjacent states. *)
Definition adjacent (a b : State) : bool :=
  match a, b with
  | Idle, Hover | Hover, Idle | Hover, Hit | Hit, Hover => true
  | _, _ => false
  end.

(** What [update] makes of a state, given the containment test. *)
Definition update_state (s : State) (inside : bool) : State :=
  match s with
  | Idle => if inside then Hover else Idle
  | Hover => if inside then Hover else Idle
  | Hit => Hit
  end.

(** The laws the SFML classes satisfy: setting the transform is read back
    and leaves the local bounds alone. *)
Class LawfulBounded (T : Type) {B : Bounded T} : Prop :=
  { get_set_transformable :
      forall (t : Transformable) (o : T), getTransformable (setTransformable t o) = t;
    bounds_set_transformable :
      forall (t : Transformable) (o : T),
        getLocalBounds (setTransformable t o) = getLocalBounds o }.

Arguments LawfulBounded T {B}.

(** The centre [centerOrigin] computes for local bounds [r]. *)
Definition centre_of (r : FloatRect) : Vector2f :=
  {| vx := F32.add (left r) (F32.of_Z (F32.to_unsigned (width r) / 2));
     vy := F32.add (top r) (F32.of_Z (F32.to_unsigned (height r) / 2)) |}.



(** Calls of a Slider other than [setValue]. *)
Definition is_setValue (c : SliderCall) : bool :=
  match c with SliderSetValue _ => true | _ => false end.
Definition is_update (c : SliderCall) : bool :=
  match c with SliderUpdate _ => true | _ => false end.



(** The operations of a Slider, with their arguments, and what they return. *)
Inductive SliderOperation : Type :=
| SliderOpHandleEvent (event : Event)
| SliderOpFreeze (state : State)
| SliderOpUnfreeze
| SliderOpState
| SliderOpUpdate (mouse : Vector2i)
| SliderOpValue
| SliderOpSetValue (value : float)
| SliderOpDraw.

Inductive SliderResult : Type :=
| ResultSlider (s : Slider)
| ResultState (state : State)
| ResultValue (v : float)
| ResultSprite (sprite : Sprite).

Definition Slider_perform (s : Slider) (o : SliderOperation) : outcome SliderResult :=
  match o with
  | SliderOpHandleEvent e => Done (ResultSlider (Slider_handleEvent s e))
  | SliderOpFreeze st => Done (ResultSlider (Slider_freeze st s))
  | SliderOpUnfreeze => Done (ResultSlider (Slider_unfreeze s))
  | SliderOpState => Done (ResultState (Slider_state s))
  | SliderOpUpdate m => (r <- Slider_update s m ;; Done (ResultSlider r))%outcome
  | SliderOpValue => (v <- Slider_value s ;; Done (ResultValue v))%outcome
  | SliderOpSetValue v => (r <- Slider_setValue s v ;; Done (ResultSlider r))%outcome
  | SliderOpDraw => (r <- Slider_draw s ;; Done (ResultSprite r))%outcome
  end.

(** The argument [assert(value <= 1.0 and value >= 0.0)] accepts. *)
Definition in_unit_interval (v : float) : bool :=
  F32.leb v F32.one && F32.leb F32.zero v.

(** *** Sample objects *)

Definition sample_event (t : EventType) (b : MouseButton) : Event :=
  {| type := t; mouseButton_button := b;
     mouseWheelScroll_wheel := VerticalWheel;
     mouseWheelScroll_delta := F32.zero;
     mouseMove_y := 0; text_unicode := 0; key_code := 0 |}.

Definition text_entered (code : Z) : Event :=
  {| type := TextEntered; mouseButton_button := Left;
     mouseWheelScroll_wheel := VerticalWheel;
     mouseWheelScroll_delta := F32.zero;
     mouseMove_y := 0; text_unicode := code; key_code := 0 |}.

Definition key_pressed (code : Z) : Event :=
  {| type := KeyPressed; mouseButton_button := Left;
     mouseWheelScroll_wheel := VerticalWheel;
     mouseWheelScroll_delta := F32.zero;
     mouseMove_y := 0; text_unicode := 0; key_code := code |}.

Definition point (x y : Z) : Vector2i := {| ix := x; iy := y |}.

(** A circle of radius 10. *)
Definition sample_circle : CircleShape :=
  {| circle_transform := identity_transformable;
     getRadius := F32.of_Z 10;
     circle_bounds := {| left := F32.zero; top := F32.zero;
                         width := F32.of_Z 20; height := F32.of_Z 20 |} |}.

(** A rectangle of 100 by 20. *)
Definition sample_rectangle : RectangleShape :=
  RectangleShape_new {| vx := F32.of_Z 100; vy := F32.of_Z 20 |}.

(** A sprite on a sheet of five frames of 32 by 32. *)
Definition sample_sprite : Sprite :=
  {| sprite_transform := identity_transformable;
     getTexture := Some {| ux := 32; uy := 160 |};
     getTextureRect := {| ileft := 0; itop := 0; iwidth := 32; iheight := 32 |} |}.

Definition sample_slider : Slider :=
  Slider_new sample_rectangle sample_sprite Horizontal.

Definition sample_knob : Knob :=
  Knob_new sample_circle sample_sprite F32.zero.

Definition sample_lineedit : LineEdit :=
  LineEdit_new sample_rectangle Text_default.

Definition five : float := F32.of_Z 5.

(** The base of a knob the pointer has just entered. *)
Definition hovering_knob_base : Clickable CircleShape :=
  Clickable_update (Clickable_new sample_circle) (point 0 0).

(** The base of a frozen knob its owner has moved and scaled. *)
Definition moved_frozen_knob_base : Clickable CircleShape :=
  Clickable_setScale {| vx := F32.two; vy := F32.two |}
    (Clickable_setPosition {| vx := F32.of_Z 5; vy := F32.of_Z 7 |}
       (Clickable_freeze Idle (Clickable_new sample_circle))).

(** A line edit the pointer has just entered. *)
Definition hovering_lineedit : LineEdit :=
  match LineEdit_update sample_lineedit (point 0 0) with
  | Done l => l
  | _ => sample_lineedit
  end.

(** A knob whose sprite has no texture. *)
Definition bare_knob : Knob := Knob_new sample_circle Sprite_default F32.zero.

(** *** Vocabulary of the further properties *)

(** A call that is not the press of the primary button. *)
Definition no_primary_press (k : FrameCall) : bool :=
  match k with
  | CallHandleEvent e => negb (primary_press e)
  | CallUpdate _ => true
  end.

(** A call of a LineEdit other than [setString]. *)
Definition not_setString (c : LineEditCall) : bool :=
  match c with LineEditSetString _ => false | _ => true end.

(** A number that is not negative: NaN, a zero, plus infinity or a positive
    finite number. *)
Definition not_negative (x : spec_float) : bool :=
  match x with
  | S754_nan | S754_zero _ | S754_infinity false | S754_finite false _ _ => true
  | _ => false
  end.

(** [sf::CircleShape()], the dummy a default-constructed Knob holds: the
    radius is zero. *)
Definition CircleShape_default : CircleShape :=
  {| circle_transform := identity_transformable;
     getRadius := F32.zero;
     circle_bounds := {| left := F32.zero; top := F32.zero;
                         width := F32.zero; height := F32.zero |} |}.

(** A Slider whose sprite has no texture. *)
Definition bare_slider : Slider :=
  Slider_new sample_rectangle Sprite_default Horizontal.

Definition sample_button : Button :=
  Button_new sample_sprite sample_sprite sample_sprite.

(** ** Properties of the machine numbers *)

Lemma SFcompare_antisym (x y : spec_float) :
  SFcompare y x = option_map CompOpp (SFcompare x y).
Proof.
  destruct x as [sx | sx | | sx mx ex], y as [sy | sy | | sy my ey];
    simpl; try reflexivity;
    try (destruct sx; reflexivity); try (destruct sy; reflexivity);
    try (destruct sx, sy; reflexivity).
  pose proof (Pos.compare_cont_antisym mx my Eq) as Hm; simpl in Hm.
  destruct sx, sy; simpl; try reflexivity;
    rewrite (Z.compare_antisym ex ey);
    destruct (ex ?= ey); simpl; try reflexivity;
    rewrite <- Hm; try rewrite CompOpp_involutive; reflexivity.
Qed.

Lemma leb_total (x y : float) :
  F32.is_nan x = false -> F32.is_nan y = false ->
  F32.leb x y = false -> F32.leb y x = true.
Proof.
  unfold F32.leb, SFleb. rewrite (SFcompare_antisym x y).
  destruct x, y; simpl; try discriminate;
    intros _ _; try (destruct s; discriminate || reflexivity);
    try (destruct s, s0; discriminate || reflexivity).
  destruct s, s0; simpl; try discriminate; try reflexivity;
    destruct (e ?= e0); simpl; try discriminate; try reflexivity;
    destruct (Pos.compare_cont Eq m m0); simpl; discriminate || reflexivity.
Qed.

Lemma leb_antisym_finite (x : float) (s : bool) (m : positive) (e : Z) :
  F32.leb x (S754_finite s m e) = true ->
  F32.leb (S754_finite s m e) x = true ->
  x = S754_finite s m e.
Proof.
  unfold F32.leb, SFleb. rewrite (SFcompare_antisym x (S754_finite s m e)).
  destruct x as [sx | sx | | sx mx ex]; simpl; try discriminate;
    try (destruct s; discriminate); try (destruct sx; discriminate).
  destruct sx, s; simpl; try discriminate;
    destruct (ex ?= e) eqn:He; simpl; try discriminate;
    destruct (Pos.compare_cont Eq mx m) eqn:Hm; simpl; try discriminate;
    intros _ _; apply Z.compare_eq in He; apply Pos.compare_eq in Hm;
    subst; reflexivity.
Qed.

Lemma clamp_in_range (v : float) : in_range (clamp v) = true.
Proof.
  unfold clamp, F32.fmin.
  destruct (F32.is_nan v) eqn:Hnan; [reflexivity |].
  change (F32.is_nan F32.one) with false; cbv iota.
  destruct (F32.leb v F32.one) eqn:Hle; [| reflexivity].
  unfold F32.fmax.
  change (F32.is_nan F32.minus_one) with false; cbv iota.
  rewrite Hnan.
  destruct (F32.leb v F32.minus_one) eqn:Hlo; [reflexivity |].
  unfold in_range. rewrite Hle, (leb_total v F32.minus_one Hnan eq_refl Hlo).
  reflexivity.
Qed.

Lemma clamp_of_in_range (v : float) : in_range v = true -> clamp v = v.
Proof.
  unfold in_range. intros H. apply andb_true_iff in H as [Hlo Hhi].
  assert (Hnan : F32.is_nan v = false) by (destruct v; [reflexivity .. | discriminate | reflexivity]).
  unfold clamp, F32.fmin. rewrite Hnan.
  change (F32.is_nan F32.one) with false; cbv iota. rewrite Hhi.
  unfold F32.fmax.
  change (F32.is_nan F32.minus_one) with false; cbv iota. rewrite Hnan.
  destruct (F32.leb v F32.minus_one) eqn:Hle; [| reflexivity].
  symmetry. exact (leb_antisym_finite v _ _ _ Hle Hlo).
Qed.

Lemma clamp_idempotent (v : float) : clamp (clamp v) = clamp v.
Proof. apply clamp_of_in_range, clamp_in_range. Qed.

(** ** The SFML classes are lawful *)

#[export] Instance LawfulBounded_CircleShape : LawfulBounded CircleShape.
Proof. split; intros t o; reflexivity. Qed.

#[export] Instance LawfulBounded_RectangleShape : LawfulBounded RectangleShape.
Proof. split; intros t o; reflexivity. Qed.

#[export] Instance LawfulBounded_Sprite : LawfulBounded Sprite.
Proof. split; intros t o; reflexivity. Qed.

(** ** The interaction state machine *)

Lemma State_eqb_eq (a b : State) : State_eqb a b = true <-> a = b.
Proof. destruct a, b; simpl; split; intro; congruence. Qed.

Section ClickableFacts.

Context {T : Type} `{Bounded T} `{Collidable T}.

Lemma track_shape_keeps (c : Clickable T) :
  mState (track_shape c) = mState c
  /\ mFreezed (track_shape c) = mFreezed c
  /\ fired (track_shape c) = fired c
  /\ mCallbacks (track_shape c) = mCallbacks c
  /\ widget_transform (track_shape c) = widget_transform c.
Proof. repeat split. Qed.

Lemma frozen_handleEvent (c : Clickable T) (e : Event) :
  mFreezed c = true -> Clickable_handleEvent c e = c.
Proof. intros F. unfold Clickable_handleEvent. rewrite F. reflexivity. Qed.

Lemma frozen_update (c : Clickable T) (mouse : Vector2i) :
  mFreezed c = true -> Clickable_update c mouse = track_shape c.
Proof.
  intros F. unfold Clickable_update.
  change (mFreezed (track_shape c)) with (mFreezed c). rewrite F. reflexivity.
Qed.

Lemma frozen_call (c : Clickable T) (k : FrameCall) :
  mFreezed c = true ->
  mState (apply_call c k) = mState c
  /\ mFreezed (apply_call c k) = true
  /\ fired (apply_call c k) = fired c.
Proof.
  intros F. destruct k as [e | m]; simpl.
  - rewrite (frozen_handleEvent c e F). auto.
  - rewrite (frozen_update c m F). simpl. auto.
Qed.

Lemma frozen_run (ks : list FrameCall) :
  forall c : Clickable T,
    mFreezed c = true ->
    mState (run_calls c ks) = mState c
    /\ mFreezed (run_calls c ks) = true
    /\ fired (run_calls c ks) = fired c.
Proof.
  induction ks as [| k ks IH]; intros c F; simpl.
  - auto.
  - destruct (frozen_call c k F) as (Hs & Hf & Hl).
    destruct (IH (apply_call c k) Hf) as (Hs' & Hf' & Hl').
    unfold run_calls in *. simpl.
    rewrite Hs', Hl'. auto.
Qed.

(** The state [update] leaves, for an unfrozen widget. *)
Lemma unfrozen_update_state (c : Clickable T) (mouse : Vector2i) :
  mFreezed c = false ->
  mState (Clickable_update c mouse)
  = update_state (mState c) (pointer_inside c mouse).
Proof.
  intros F. unfold Clickable_update, pointer_inside.
  change (mFreezed (track_shape c)) with (mFreezed c). rewrite F.
  change (mState (track_shape c)) with (mState c).
  generalize (contains (mCollisionShape (track_shape c)) mouse). intros b.
  destruct (mState c) eqn:E, b; simpl; try rewrite E; reflexivity.
Qed.

(** C2. For an unfrozen widget: a primary press while Hover moves to Hit
    and fires the Hit callback once; a primary release while Hit moves to
    Hover and fires the Hover callback once; a press while Idle or Hit and
    a release while Idle or Hover change nothing; [update] moves Idle to
    Hover when the pointer is inside and Hover to Idle when it is outside,
    firing the callback of the new state once; [update] never leaves Hit;
    and nothing else changes the state or fires a callback. *)
Theorem Clickable_transition_relation
    (c : Clickable T) (e : Event) (mouse : Vector2i) :
  Clickable_freezed c = false ->
  (primary_press e = true -> Clickable_state c = Hover ->
     Clickable_state (Clickable_handleEvent c e) = Hit
     /\ fired (Clickable_handleEvent c e) = fired c ++ [Clickable_callback c Hit])
  /\ (primary_release e = true -> Clickable_state c = Hit ->
     Clickable_state (Clickable_handleEvent c e) = Hover
     /\ fired (Clickable_handleEvent c e) = fired c ++ [Clickable_callback c Hover])
  /\ (type e = MouseButtonPressed ->
      Clickable_state c = Idle \/ Clickable_state c = Hit ->
      Clickable_handleEvent c e = c)
  /\ (type e = MouseButtonReleased ->
      Clickable_state c = Idle \/ Clickable_state c = Hover ->
      Clickable_handleEvent c e = c)
  /\ (primary_press e = false -> primary_release e = false ->
      Clickable_handleEvent c e = c)
  /\ (Clickable_state c = Idle -> pointer_inside c mouse = true ->
      Clickable_state (Clickable_update c mouse) = Hover
      /\ fired (Clickable_update c mouse) = fired c ++ [Clickable_callback c Hover])
  /\ (Clickable_state c = Hover -> pointer_inside c mouse = false ->
      Clickable_state (Clickable_update c mouse) = Idle
      /\ fired (Clickable_update c mouse) = fired c ++ [Clickable_callback c Idle])
  /\ (Clickable_state c = Idle -> pointer_inside c mouse = false ->
      Clickable_state (Clickable_update c mouse) = Idle
      /\ fired (Clickable_update c mouse) = fired c)
  /\ (Clickable_state c = Hover -> pointer_inside c mouse = true ->
      Clickable_state (Clickable_update c mouse) = Hover
      /\ fired (Clickable_update c mouse) = fired c)
  /\ (Clickable_state c = Hit ->
      Clickable_state (Clickable_update c mouse) = Hit
      /\ fired (Clickable_update c mouse) = fired c).
Proof.
  unfold Clickable_freezed, Clickable_state, Clickable_callback.
  intros F.
  assert (HU : forall s inside,
             mState c = s -> pointer_inside c mouse = inside ->
             Clickable_update c mouse
             = match s, inside with
               | Idle, true => Clickable_call (with_state Hover (track_shape c))
               | Hover, false => Clickable_call (with_state Idle (track_shape c))
               | _, _ => track_shape c
               end).
  { intros s inside Hs Hin. unfold Clickable_update.
    change (mFreezed (track_shape c)) with (mFreezed c). rewrite F.
    change (mState (track_shape c)) with (mState c). rewrite Hs.
    unfold pointer_inside in Hin. rewrite Hin.
    destruct s, inside; reflexivity. }
  unfold primary_press, primary_release.
  repeat split.
  - unfold Clickable_handleEvent. rewrite F.
    apply andb_true_iff in H1 as [Ht Hb]. rewrite Ht, H2, Hb. reflexivity.
  - unfold Clickable_handleEvent. rewrite F.
    apply andb_true_iff in H1 as [Ht Hb]. rewrite Ht, H2, Hb. reflexivity.
  - unfold Clickable_handleEvent. rewrite F.
    apply andb_true_iff in H1 as [Ht Hb].
    destruct (type e); try discriminate. simpl. rewrite H2, Hb. reflexivity.
  - unfold Clickable_handleEvent. rewrite F.
    apply andb_true_iff in H1 as [Ht Hb].
    destruct (type e); try discriminate. simpl. rewrite H2, Hb. reflexivity.
  - intros Ht Hs. unfold Clickable_handleEvent. rewrite F, Ht. simpl.
    destruct Hs as [Hs | Hs]; rewrite Hs; reflexivity.
  - intros Ht Hs. unfold Clickable_handleEvent. rewrite F, Ht. simpl.
    destruct Hs as [Hs | Hs]; rewrite Hs; reflexivity.
  - intros Hp Hr. unfold Clickable_handleEvent. rewrite F.
    destruct (EventType_eqb (type e) MouseButtonPressed) eqn:Ep.
    + simpl in Hp. rewrite Hp, andb_false_r. reflexivity.
    + destruct (EventType_eqb (type e) MouseButtonReleased) eqn:Er.
      * simpl in Hr. rewrite Hr, andb_false_r. reflexivity.
      * reflexivity.
  - rewrite (HU Idle true H1 H2). reflexivity.
  - rewrite (HU Idle true H1 H2). reflexivity.
  - rewrite (HU Hover false H1 H2). reflexivity.
  - rewrite (HU Hover false H1 H2). reflexivity.
  - rewrite (HU Idle false H1 H2). simpl. exact H1.
  - rewrite (HU Idle false H1 H2). reflexivity.
  - rewrite (HU Hover true H1 H2). simpl. exact H1.
  - rewrite (HU Hover true H1 H2). reflexivity.
  - rewrite (HU Hit (pointer_inside c mouse) H1 eq_refl). 
    destruct (pointer_inside c mouse); simpl; exact H1.
  - rewrite (HU Hit (pointer_inside c mouse) H1 eq_refl).
    destruct (pointer_inside c mouse); reflexivity.
Qed.

End ClickableFacts.

Section FreezeFacts.

Context {T : Type} `{Bounded T} `{Collidable T}.

(** C3. After [freeze(S)], whatever [handleEvent] and [update] calls follow,
    the widget reports [S], stays frozen and fires no callback; after
    [unfreeze], the next [update] makes the transition that belongs to [S]
    and the pointer. *)
Theorem freeze_holds_state
    (c : Clickable T) (S : State) (ks : list FrameCall) (mouse : Vector2i) :
  let c' := run_calls (Clickable_freeze S c) ks in
  Clickable_state c' = S
  /\ Clickable_freezed c' = true
  /\ fired c' = fired c
  /\ Clickable_state (Clickable_unfreeze c') = S
  /\ Clickable_freezed (Clickable_unfreeze c') = false
  /\ Clickable_state (Clickable_update (Clickable_unfreeze c') mouse)
     = update_state S (pointer_inside (Clickable_unfreeze c') mouse).
Proof.
  intros c'. unfold Clickable_state, Clickable_freezed.
  destruct (frozen_run ks (Clickable_freeze S c) eq_refl) as (Hs & Hf & Hl).
  fold c' in Hs, Hf, Hl. simpl in Hs, Hl.
  repeat split; try assumption.
  rewrite (unfrozen_update_state (Clickable_unfreeze c') mouse eq_refl).
  simpl. rewrite Hs. reflexivity.
Qed.

(** C5, as the code has it.  [handleEvent] and [update] keep the state or
    move it between adjacent states; [bind], [unfreeze] and the setters of
    the transform keep it; [freeze(S)] sets it to [S] whatever it was. *)
Theorem operations_move_between_adjacent_states (c : Clickable T) (o : Operation) :
  match o with
  | OpFreeze s => Clickable_state (apply_operation c o) = s
  | OpHandleEvent _ | OpUpdate _ =>
      Clickable_state (apply_operation c o) = Clickable_state c
      \/ adjacent (Clickable_state c) (Clickable_state (apply_operation c o)) = true
  | _ => Clickable_state (apply_operation c o) = Clickable_state c
  end.
Proof.
  unfold Clickable_state.
  destruct o as [s f | s | | e | m | p | s]; simpl; try reflexivity.
  - unfold Clickable_handleEvent.
    destruct (mFreezed c); [left; reflexivity |].
    destruct (EventType_eqb (type e) MouseButtonPressed).
    + destruct (mState c) eqn:E; simpl;
        destruct (MouseButton_eqb (mouseButton_button e) Left); simpl;
        rewrite ?E; auto.
    + destruct (EventType_eqb (type e) MouseButtonReleased); [| left; reflexivity].
      destruct (mState c) eqn:E; simpl;
        destruct (MouseButton_eqb (mouseButton_button e) Left); simpl;
        rewrite ?E; auto.
  - destruct (mFreezed c) eqn:F.
    + rewrite (frozen_update c m F). left; reflexivity.
    + rewrite (unfrozen_update_state c m F).
      destruct (mState c), (pointer_inside c m); simpl; auto.
Qed.

(** C8. Every [update], frozen or not, gives the collision shape the
    position and the scale of the widget and centres its origin on its
    local bounds; the transform of the widget is not touched; and when the
    widget is frozen that is all [update] does. *)
Theorem update_tracks_transform
    (L : LawfulBounded T) (c : Clickable T) (mouse : Vector2i) :
  let c' := Clickable_update c mouse in
  getPosition (Clickable_collisionShape c') = position (widget_transform c)
  /\ getScale (Clickable_collisionShape c') = scale (widget_transform c)
  /\ getOrigin (Clickable_collisionShape c')
     = centre_of (getLocalBounds (Clickable_collisionShape c))
  /\ widget_transform c' = widget_transform c
  /\ (Clickable_freezed c = true ->
      Clickable_state c' = Clickable_state c
      /\ Clickable_freezed c' = true
      /\ fired c' = fired c
      /\ mCallbacks c' = mCallbacks c).
Proof.
  intros c'.
  assert (Hshape : mCollisionShape c' = mCollisionShape (track_shape c)
                   /\ widget_transform c' = widget_transform c).
  { unfold c', Clickable_update.
    destruct (mFreezed (track_shape c)); [split; reflexivity |].
    destruct (State_eqb (mState (track_shape c)) Idle
              && contains (mCollisionShape (track_shape c)) mouse);
      [split; reflexivity |].
    destruct (State_eqb (mState (track_shape c)) Hover
              && negb (contains (mCollisionShape (track_shape c)) mouse));
      split; reflexivity. }
  destruct Hshape as [Hshape Hw].
  unfold Clickable_collisionShape, Clickable_state, Clickable_freezed.
  rewrite Hshape.
  unfold track_shape, centerOrigin, setOrigin, setScale, setPosition,
    getPosition, getScale, getOrigin, centre_of; simpl.
  repeat rewrite ?get_set_transformable, ?bounds_set_transformable; simpl.
  split; [reflexivity |]. split; [reflexivity |]. split; [reflexivity |].
  split; [exact Hw |].
  intros F. unfold c'. rewrite (frozen_update c mouse F). repeat split.
  exact F.
Qed.

End FreezeFacts.


(** C5, counterexample: on a fresh widget, which is Idle, [freeze(Hit)]
    moves the state to Hit at once, and Idle and Hit are not adjacent. *)
Lemma freeze_jumps_from_Idle_to_Hit :
  Clickable_state (Clickable_new sample_circle) = Idle
  /\ Clickable_state (apply_operation (Clickable_new sample_circle) (OpFreeze Hit)) = Hit
  /\ adjacent Idle Hit = false.
Proof. repeat split. Qed.

(** C2, witness: a knob under the pointer is pressed. *)
Lemma Clickable_transition_relation_witness :
  Clickable_freezed hovering_knob_base = false
  /\ Clickable_state hovering_knob_base = Hover
  /\ Clickable_state
       (Clickable_handleEvent hovering_knob_base (sample_event MouseButtonPressed Left))
     = Hit
  /\ fired (Clickable_handleEvent hovering_knob_base
              (sample_event MouseButtonPressed Left))
     = fired hovering_knob_base ++ [Clickable_callback hovering_knob_base Hit].
Proof.
  split; [vm_compute; reflexivity |]. split; [vm_compute; reflexivity |].
  pose proof (Clickable_transition_relation hovering_knob_base
                (sample_event MouseButtonPressed Left) (point 0 0)) as W.
  assert (F : Clickable_freezed hovering_knob_base = false)
    by (vm_compute; reflexivity).
  destruct (W F) as (P & _).
  apply P; vm_compute; reflexivity.
Defined.

(** C8, witness: a frozen knob moved and scaled by its owner. *)
Lemma update_tracks_transform_witness :
  let c' := Clickable_update moved_frozen_knob_base (point 5 7) in
  getPosition (Clickable_collisionShape c') = {| vx := F32.of_Z 5; vy := F32.of_Z 7 |}
  /\ getScale (Clickable_collisionShape c') = {| vx := F32.two; vy := F32.two |}
  /\ getOrigin (Clickable_collisionShape c') = {| vx := F32.of_Z 10; vy := F32.of_Z 10 |}
  /\ Clickable_state c' = Idle.
Proof.
  intros c'.
  destruct (update_tracks_transform LawfulBounded_CircleShape
              moved_frozen_knob_base (point 5 7)) as (Hp & Hs & Ho & _ & Hf).
  destruct (Hf eq_refl) as (Hst & _).
  split; [exact Hp |]. split; [exact Hs |]. split; [| exact Hst].
  etransitivity; [exact Ho |]. vm_compute. reflexivity.
Defined.

(** ** Containment *)



(** ** Slider and Knob values *)

Lemma sprite_texture_tracked (t p : Vector2f) (sp : Sprite) :
  getTexture (centerOrigin (setScale t (setPosition p sp))) = getTexture sp.
Proof. reflexivity. Qed.

(** What a returning [Slider::update] has done. *)
Lemma Slider_update_Done (s : Slider) (mouse : Vector2i) (s' : Slider) :
  Slider_update s mouse = Done s' ->
  Slider_mInitialized s = true
  /\ Slider_mInitialized s' = true
  /\ Slider_base s' = Clickable_update (Slider_base s) mouse
  /\ mType s' = mType s
  /\ getTexture (Slider_mSprite s') = getTexture (Slider_mSprite s)
  /\ (exists v0, Slider_mValue s' = clamp v0
        /\ (Clickable_state (Clickable_update (Slider_base s) mouse) <> Hit ->
            v0 = Slider_mValue s))
  /\ (exists size, getTexture (Slider_mSprite s) = Some size /\ ux size <> 0
        /\ sheet_rect size (Slider_mValue s') = Done (getTextureRect (Slider_mSprite s'))).
Proof.
  unfold Slider_update.
  destruct (Slider_mInitialized s) eqn:I; cbn [assert obind]; [| discriminate].
  rewrite sprite_texture_tracked.
  destruct (getTexture (Slider_mSprite s)) as [size |] eqn:Tx; [| discriminate].
  unfold sheet_rect.
  destruct (ux size =? 0) eqn:W; cbn [obind]; [discriminate |].
  intros E. injection E as <-. cbn [Slider_mInitialized Slider_base mType
    Slider_mValue Slider_mSprite setTextureRect getTexture getTextureRect].
  rewrite ?sprite_texture_tracked.
  repeat split; try assumption.
  - eexists. split; [reflexivity |].
    intros NH.
    destruct (State_eqb (Clickable_state (Clickable_update (Slider_base s) mouse)) Hit) eqn:E.
    + apply State_eqb_eq in E. contradiction.
    + destruct (mType s); reflexivity.
  - exists size. split; [reflexivity |]. split; [apply Z.eqb_neq; exact W |].
    rewrite W. reflexivity.
Qed.

Lemma Slider_run_app (a b : list SliderCall) :
  forall s, Slider_run s (a ++ b)
            = obind (Slider_run s a) (fun s1 => Slider_run s1 b).
Proof.
  induction a as [| c a IH]; intros s; cbn [Slider_run app obind]; [reflexivity |].
  destruct (Slider_call s c); cbn [obind]; auto.
Qed.


Lemma Slider_call_initialized (s : Slider) (c : SliderCall) (s' : Slider) :
  Slider_call s c = Done s' -> Slider_mInitialized s' = Slider_mInitialized s.
Proof.
  destruct c as [e | m | v]; cbn [Slider_call].
  - intros E; injection E as <-. reflexivity.
  - intros E. destruct (Slider_update_Done s m E) as (I & I' & _). congruence.
  - unfold Slider_setValue. destruct (Slider_mInitialized s) eqn:I;
      cbn [assert obind]; [| discriminate].
    intros E; injection E as <-. reflexivity.
Qed.

Lemma Slider_run_initialized (cs : list SliderCall) :
  forall s s', Slider_run s cs = Done s' ->
               Slider_mInitialized s' = Slider_mInitialized s.
Proof.
  induction cs as [| c cs IH]; intros s s'; cbn [Slider_run].
  - intros E; injection E as <-. reflexivity.
  - destruct (Slider_call s c) as [s1 | |] eqn:C; cbn [obind]; try discriminate.
    intros R. rewrite (IH _ _ R). exact (Slider_call_initialized s c C).
Qed.









(** ** A frozen Slider *)

Lemma frozen_Slider_call (s : Slider) (c : SliderCall) (s' : Slider) :
  Clickable_freezed (Slider_base s) = true ->
  Slider_state s <> Hit ->
  Slider_call s c = Done s' ->
  Clickable_freezed (Slider_base s') = true
  /\ Slider_state s' = Slider_state s
  /\ Slider_mValue s'
     = match c with
       | SliderHandleEvent _ => Slider_mValue s
       | SliderUpdate _ => clamp (Slider_mValue s)
       | SliderSetValue v => v
       end.
Proof.
  unfold Clickable_freezed, Slider_state, Clickable_state. intros F NH.
  destruct c as [e | m | v]; cbn [Slider_call].
  - intros E; injection E as <-. unfold Slider_handleEvent. cbn [Slider_with_base
      Slider_base Slider_mValue]. rewrite (frozen_handleEvent _ e F). auto.
  - intros E.
    destruct (Slider_update_Done s m E) as (_ & _ & Hb & _ & _ & (v0 & Hv & Hv0) & _).
    rewrite Hb, (frozen_update _ m F). cbn [track_shape with_shape mFreezed mState].
    repeat split; try assumption.
    rewrite Hv. f_equal. apply Hv0.
    unfold Clickable_state. rewrite (frozen_update _ m F). exact NH.
  - unfold Slider_setValue. destruct (Slider_mInitialized s);
      cbn [assert obind]; [| discriminate].
    intros E; injection E as <-. cbn [Slider_base Slider_mValue]. auto.
Qed.

Lemma frozen_Slider_run (cs : list SliderCall) :
  forall s s',
    Clickable_freezed (Slider_base s) = true ->
    Slider_state s <> Hit ->
    Slider_run s cs = Done s' ->
    Clickable_freezed (Slider_base s') = true /\ Slider_state s' = Slider_state s.
Proof.
  induction cs as [| c cs IH]; intros s s' F NH; cbn [Slider_run].
  - intros E; injection E as <-. auto.
  - destruct (Slider_call s c) as [s1 | |] eqn:C; cbn [obind]; try discriminate.
    intros R. destruct (frozen_Slider_call s c F NH C) as (F1 & S1 & _).
    destruct (IH s1 s' F1 ltac:(rewrite S1; exact NH) R) as (F' & S').
    split; [exact F' | congruence].
Qed.

Lemma frozen_Slider_settles (post : list SliderCall) :
  forall s s',
    Clickable_freezed (Slider_base s) = true ->
    Slider_state s <> Hit ->
    forallb (fun c => negb (is_setValue c)) post = true ->
    Slider_run s post = Done s' ->
    Slider_mValue s'
    = if existsb is_update post then clamp (Slider_mValue s) else Slider_mValue s.
Proof.
  induction post as [| c post IH]; intros s s' F NH Hn; cbn [Slider_run existsb].
  - intros E; injection E as <-. reflexivity.
  - cbn [forallb] in Hn. apply andb_true_iff in Hn as [Hc Hn].
    destruct (Slider_call s c) as [s1 | |] eqn:C; cbn [obind]; try discriminate.
    intros R. destruct (frozen_Slider_call s c F NH C) as (F1 & S1 & V1).
    rewrite (IH s1 s' F1 ltac:(rewrite S1; exact NH) Hn R), V1.
    destruct c as [e | m | v]; cbn [is_update is_setValue negb orb] in *.
    + reflexivity.
    + rewrite clamp_idempotent. destruct (existsb is_update post); reflexivity.
    + discriminate.
Qed.

(** C4, as the code has it.  For a Slider frozen in Idle or Hover, after any
    calls of [handleEvent], [update] and [setValue], the value reported is
    the argument of the last [setValue], as it was given while no [update]
    has followed and clamped to [-1, 1] once one has; no pointer position
    enters it. *)
Theorem frozen_slider_follows_setValue
    (s : Slider) (pre post : list SliderCall) (v : float) (s' : Slider) :
  Clickable_freezed (Slider_base s) = true ->
  Slider_state s <> Hit ->
  forallb (fun c => negb (is_setValue c)) post = true ->
  Slider_run s (pre ++ SliderSetValue v :: post) = Done s' ->
  Slider_value s' = Done (if existsb is_update post then clamp v else v).
Proof.
  intros F NH Hn R.
  rewrite Slider_run_app in R.
  destruct (Slider_run s pre) as [s1 | |] eqn:P; cbn [obind Slider_run] in R;
    try discriminate.
  destruct (frozen_Slider_run pre s F NH P) as (F1 & S1).
  destruct (Slider_call s1 (SliderSetValue v)) as [s2 | |] eqn:C; cbn [obind] in R;
    try discriminate.
  destruct (frozen_Slider_call s1 _ F1 ltac:(rewrite S1; exact NH) C) as (F2 & S2 & V2).
  assert (I2 : Slider_mInitialized s2 = true).
  { cbn [Slider_call] in C. unfold Slider_setValue in C.
    destruct (Slider_mInitialized s1); cbn [assert obind] in C; [| discriminate].
    injection C as <-. reflexivity. }
  unfold Slider_value.
  rewrite (Slider_run_initialized post s2 R), I2. cbn [assert obind].
  rewrite (frozen_Slider_settles post s2 F2 ltac:(rewrite S2, S1; exact NH) Hn R), V2.
  reflexivity.
Qed.

(** C4, counterexample: a Slider frozen in Hit follows the pointer, not the
    [setValue] argument; and right after [setValue(5)] a frozen Slider
    reports 5, not the clamped 1. *)
Lemma frozen_slider_off_setValue :
  (exists s', Slider_run (Slider_freeze Hit sample_slider)
                [SliderSetValue F32.half; SliderUpdate (point 1000 0)] = Done s'
              /\ Slider_value s' = Done F32.one
              /\ clamp F32.half = F32.half
              /\ F32.half <> F32.one)
  /\ (exists s', Slider_run (Slider_freeze Idle sample_slider)
                   [SliderSetValue five] = Done s'
                 /\ Slider_value s' = Done five
                 /\ clamp five = F32.one
                 /\ five <> F32.one).
Proof.
  split; eexists; (split; [vm_compute; reflexivity |]);
    (split; [vm_compute; reflexivity |]);
    (split; [vm_compute; reflexivity |]); vm_compute; discriminate.
Qed.

(** C4, witness: a progress bar frozen in Idle, set to 5 while the pointer
    moves about, reports 1. *)
Lemma frozen_slider_follows_setValue_witness :
  exists s',
    Slider_run (Slider_freeze Idle sample_slider)
      ([SliderUpdate (point 3 4)] ++ SliderSetValue five
         :: [SliderUpdate (point 1000 0);
             SliderHandleEvent (sample_event MouseButtonPressed Left);
             SliderUpdate (point (-50) 9)]) = Done s'
    /\ Slider_value s' = Done F32.one.
Proof.
  destruct (Slider_run (Slider_freeze Idle sample_slider)
      ([SliderUpdate (point 3 4)] ++ SliderSetValue five
         :: [SliderUpdate (point 1000 0);
             SliderHandleEvent (sample_event MouseButtonPressed Left);
             SliderUpdate (point (-50) 9)])) as [s' | |] eqn:R;
    [| vm_compute in R; discriminate ..].
  exists s'. split; [reflexivity |].
  assert (NH : Slider_state (Slider_freeze Idle sample_slider) <> Hit)
    by (vm_compute; discriminate).
  exact (@frozen_slider_follows_setValue (Slider_freeze Idle sample_slider)
           [SliderUpdate (point 3 4)]
           [SliderUpdate (point 1000 0);
            SliderHandleEvent (sample_event MouseButtonPressed Left);
            SliderUpdate (point (-50) 9)]
           five s' eq_refl NH eq_refl R).
Defined.

(** ** The spritesheet *)




(** ** Assertions *)

(** C7, as the code has it.  On a placeholder Slider, [update], [value],
    [setValue] and [draw] stop on the assertion; on a placeholder LineEdit,
    [handleEvent], [update], [setString], [string] and [draw] do;
    [Knob::setValue] does for an argument outside [0, 1]; and so do
    [Knob::textureRect] and [Knob::update] when the sprite has no texture. *)
Theorem misuse_stops_on_assertion
    (s : Slider) (l : LineEdit) (k k0 : Knob) (v : float) :
  Slider_mInitialized s = false ->
  LineEdit_mInitialized l = false ->
  in_unit_interval v = false ->
  getTexture (Knob_mSprite k0) = None ->
  ((forall m, Slider_update s m = AssertFailed)
   /\ Slider_value s = AssertFailed
   /\ (forall x, Slider_setValue s x = AssertFailed)
   /\ Slider_draw s = AssertFailed)
  /\ ((forall sgn e, LineEdit_handleEvent sgn l e = AssertFailed)
      /\ (forall m, LineEdit_update l m = AssertFailed)
      /\ (forall x, LineEdit_setString l x = AssertFailed)
      /\ LineEdit_string l = AssertFailed
      /\ LineEdit_draw l = AssertFailed)
  /\ Knob_setValue k v = AssertFailed
  /\ (Knob_textureRect k0 = AssertFailed
      /\ forall m, Knob_update k0 m = AssertFailed).
Proof.
  intros Is Il Hv Tx.
  unfold Slider_update, Slider_value, Slider_setValue, Slider_draw,
    LineEdit_handleEvent, LineEdit_update, LineEdit_setString, LineEdit_string,
    LineEdit_draw, Knob_setValue, Knob_update, Knob_textureRect.
  unfold in_unit_interval in Hv.
  cbn [Knob_mSprite]. rewrite Is, Il, Hv, Tx. cbn [assert obind].
  repeat split.
Qed.

(** C7, counterexample: on a placeholder Slider [handleEvent], which is the
    inherited one, returns; and so does [freeze] on a placeholder LineEdit. *)
Lemma placeholder_operations_return :
  Slider_mInitialized (Slider_default F32.zero Horizontal) = false
  /\ Slider_perform (Slider_default F32.zero Horizontal)
       (SliderOpHandleEvent (sample_event MouseButtonPressed Left))
     = Done (ResultSlider (Slider_default F32.zero Horizontal))
  /\ Slider_perform (Slider_default F32.zero Horizontal) SliderOpState
     = Done (ResultState Idle)
  /\ LineEdit_state (LineEdit_freeze Hover LineEdit_default) = Hover.
Proof. repeat split. Qed.

(** C7, witness: the placeholders, [setValue(2)] on a Knob, and a Knob
    whose sprite has no texture. *)
Lemma misuse_stops_on_assertion_witness :
  Slider_value (Slider_default F32.zero Horizontal) = AssertFailed
  /\ LineEdit_string LineEdit_default = AssertFailed
  /\ Knob_setValue sample_knob F32.two = AssertFailed
  /\ Knob_update bare_knob (point 0 0) = AssertFailed.
Proof.
  destruct (@misuse_stops_on_assertion (Slider_default F32.zero Horizontal)
              LineEdit_default sample_knob bare_knob F32.two
              eq_refl eq_refl eq_refl eq_refl)
    as ((_ & Hs & _) & (_ & _ & _ & Hl & _) & Hk & _ & Hu).
  split; [exact Hs |]. split; [exact Hl |]. split; [exact Hk |].
  exact (Hu (point 0 0)).
Defined.

(** ** LineEdit *)

Lemma Clickable_handleEvent_other {T : Type} (c : Clickable T) (e : Event) :
  EventType_eqb (type e) MouseButtonPressed = false ->
  EventType_eqb (type e) MouseButtonReleased = false ->
  Clickable_handleEvent c e = c.
Proof.
  intros P R. unfold Clickable_handleEvent. rewrite P, R.
  destruct (mFreezed c); reflexivity.
Qed.

(** A text event on a hovered LineEdit: the code is appended exactly when
    its low byte, read as a [char], is at least 32. *)
Lemma LineEdit_text_entered (sgn : bool) (l : LineEdit) (e : Event) :
  LineEdit_mInitialized l = true ->
  LineEdit_state l = Hover ->
  type e = TextEntered ->
  exists l',
    LineEdit_handleEvent sgn l e = Done l'
    /\ LineEdit_state l' = Hover
    /\ LineEdit_string l'
       = Done (if 32 <=? to_char sgn (text_unicode e)
               then getString (mText l) ++ [text_unicode e]
               else getString (mText l)).
Proof.
  intros I Hs Ht. unfold LineEdit_handleEvent, LineEdit_string, LineEdit_state in *.
  rewrite I. cbn [assert obind].
  rewrite (Clickable_handleEvent_other (LineEdit_base l) e)
    by (rewrite Ht; reflexivity).
  rewrite Hs, Ht. cbn [State_eqb EventType_eqb andb].
  eexists. split; [reflexivity |].
  cbn [LineEdit_base LineEdit_mInitialized mText assert obind].
  split; [exact Hs |].
  destruct (32 <=? to_char sgn (text_unicode e)); reflexivity.
Qed.

(** A key event on a hovered LineEdit: Backspace removes the last code,
    if there is one; any other key changes nothing. *)
Lemma LineEdit_key_pressed (sgn : bool) (l : LineEdit) (e : Event) :
  LineEdit_mInitialized l = true ->
  LineEdit_state l = Hover ->
  type e = KeyPressed ->
  exists l',
    LineEdit_handleEvent sgn l e = Done l'
    /\ LineEdit_state l' = Hover
    /\ LineEdit_string l'
       = Done (if key_code e =? Keyboard_Backspace
               then removelast (getString (mText l))
               else getString (mText l)).
Proof.
  intros I Hs Ht. unfold LineEdit_handleEvent, LineEdit_string, LineEdit_state in *.
  rewrite I. cbn [assert obind].
  rewrite (Clickable_handleEvent_other (LineEdit_base l) e)
    by (rewrite Ht; reflexivity).
  rewrite Hs, Ht. cbn [State_eqb EventType_eqb andb].
  eexists. split; [reflexivity |].
  cbn [LineEdit_base LineEdit_mInitialized mText assert obind].
  split; [exact Hs |].
  destruct (key_code e =? Keyboard_Backspace); cbn [andb]; [| reflexivity].
  destruct (getString (mText l)) as [| a r] eqn:S.
  - change (0 <? Z.of_nat (@length Z [])) with false. cbv iota.
    rewrite S. reflexivity.
  - replace (0 <? Z.of_nat (length (a :: r))) with true
      by (symmetry; apply Z.ltb_lt; cbn [length]; lia).
    reflexivity.
Qed.

(** C6, the failing input: on a hovered, empty LineEdit the text event for
    the code 1046 (the Cyrillic letter ZHE), which is at least 32, leaves the
    buffer empty, whether [char] is signed or not: the low byte of the code
    is 22. *)
Theorem LineEdit_drops_code_1046 (sgn : bool) :
  LineEdit_state hovering_lineedit = Hover
  /\ LineEdit_string hovering_lineedit = Done []
  /\ 32 <= 1046
  /\ to_char sgn 1046 = 22
  /\ exists l', LineEdit_handleEvent sgn hovering_lineedit (text_entered 1046) = Done l'
                /\ LineEdit_string l' = Done [].
Proof.
  split; [vm_compute; reflexivity |]. split; [vm_compute; reflexivity |].
  split; [lia |]. split; [destruct sgn; reflexivity |].
  destruct (@LineEdit_text_entered sgn hovering_lineedit (text_entered 1046))
    as (l' & E & _ & S); try (vm_compute; reflexivity).
  exists l'. split; [exact E |]. rewrite S.
  destruct sgn; vm_compute; reflexivity.
Qed.

(** The scenario of the specification: 'H' then 'i' give "Hi", one
    Backspace gives "H", and Backspace on the empty buffer changes nothing. *)
Lemma LineEdit_Hi_scenario (sgn : bool) :
  (exists l1 l2 l3,
      LineEdit_handleEvent sgn hovering_lineedit (text_entered 72) = Done l1
      /\ LineEdit_handleEvent sgn l1 (text_entered 105) = Done l2
      /\ LineEdit_string l2 = Done [72; 105]
      /\ LineEdit_handleEvent sgn l2 (key_pressed Keyboard_Backspace) = Done l3
      /\ LineEdit_string l3 = Done [72])
  /\ (exists l', LineEdit_handleEvent sgn hovering_lineedit
                   (key_pressed Keyboard_Backspace) = Done l'
                 /\ LineEdit_string l' = Done []).
Proof.
  split.
  - destruct (LineEdit_handleEvent sgn hovering_lineedit (text_entered 72))
      as [l1 | |] eqn:E1; [| destruct sgn; vm_compute in E1; discriminate ..].
    destruct (LineEdit_handleEvent sgn l1 (text_entered 105))
      as [l2 | |] eqn:E2;
      [| destruct sgn; vm_compute in E1; injection E1 as <-;
         vm_compute in E2; discriminate ..].
    destruct (LineEdit_handleEvent sgn l2 (key_pressed Keyboard_Backspace))
      as [l3 | |] eqn:E3;
      [| destruct sgn; vm_compute in E1; injection E1 as <-;
         vm_compute in E2; injection E2 as <-;
         vm_compute in E3; discriminate ..].
    exists l1, l2, l3.
    split; [first [assumption | reflexivity] |]. split; [first [assumption | reflexivity] |].
    split; [destruct sgn; vm_compute in E1; injection E1 as <-;
            vm_compute in E2; injection E2 as <-; reflexivity |].
    split; [first [assumption | reflexivity] |].
    destruct sgn; vm_compute in E1; injection E1 as <-;
      vm_compute in E2; injection E2 as <-;
      vm_compute in E3; injection E3 as <-; reflexivity.
  - destruct (LineEdit_handleEvent sgn hovering_lineedit (key_pressed Keyboard_Backspace))
      as [l' | |] eqn:E; [| destruct sgn; vm_compute in E; discriminate ..].
    exists l'. split; [first [assumption | reflexivity] |].
    destruct sgn; vm_compute in E; injection E as <-; reflexivity.
Qed.

(** ** Further properties of the state machine *)

Section MachineFacts.

Context {T : Type} `{Bounded T} `{Collidable T}.

Lemma update_shape (c : Clickable T) (mouse : Vector2i) :
  mCollisionShape (Clickable_update c mouse) = mCollisionShape (track_shape c)
  /\ widget_transform (Clickable_update c mouse) = widget_transform c
  /\ mCallbacks (Clickable_update c mouse) = mCallbacks c
  /\ mFreezed (Clickable_update c mouse) = mFreezed c.
Proof.
  unfold Clickable_update.
  destruct (mFreezed (track_shape c)); [repeat split |].
  destruct (State_eqb (mState (track_shape c)) Idle
            && contains (mCollisionShape (track_shape c)) mouse);
    [repeat split |].
  destruct (State_eqb (mState (track_shape c)) Hover
            && negb (contains (mCollisionShape (track_shape c)) mouse));
    repeat split.
Qed.

(** X1. [bind] replaces the callback of one state and nothing else:
    [callback] then returns the new action for that state and the old ones
    for the other two, and state, freeze flag and shape are as before. *)
Theorem bind_then_callback (c : Clickable T) (s s' : State) (f : Callback) :
  Clickable_callback (Clickable_bind s f c) s'
  = (if State_eqb s' s then f else Clickable_callback c s')
  /\ Clickable_state (Clickable_bind s f c) = Clickable_state c
  /\ Clickable_freezed (Clickable_bind s f c) = Clickable_freezed c
  /\ Clickable_collisionShape (Clickable_bind s f c) = Clickable_collisionShape c
  /\ fired (Clickable_bind s f c) = fired c.
Proof.
  split; [| repeat split].
  unfold Clickable_callback, Clickable_bind. cbn [mCallbacks].
  destruct s, s'; reflexivity.
Qed.

(** X2. A call of [handleEvent] or [update] either keeps the state and
    fires nothing, or changes the state and fires exactly one callback: the
    one bound to the state it has moved to. *)
Theorem call_fires_on_transition (c : Clickable T) (k : FrameCall) :
  (Clickable_state (apply_call c k) = Clickable_state c
   /\ fired (apply_call c k) = fired c)
  \/ (Clickable_state (apply_call c k) <> Clickable_state c
      /\ fired (apply_call c k)
         = fired c ++ [Clickable_callback c (Clickable_state (apply_call c k))]).
Proof.
  unfold Clickable_state, Clickable_callback.
  destruct k as [e | m]; cbn [apply_call].
  - unfold Clickable_handleEvent.
    destruct (mFreezed c); [left; split; reflexivity |].
    destruct (EventType_eqb (type e) MouseButtonPressed).
    + destruct (State_eqb (mState c) Hover
                && MouseButton_eqb (mouseButton_button e) Left) eqn:E.
      * right. apply andb_true_iff in E as [E _]. apply State_eqb_eq in E.
        cbn [Clickable_call with_state mState fired mCallbacks].
        split; [rewrite E; discriminate | reflexivity].
      * left; split; reflexivity.
    + destruct (EventType_eqb (type e) MouseButtonReleased);
        [| left; split; reflexivity].
      destruct (State_eqb (mState c) Hit
                && MouseButton_eqb (mouseButton_button e) Left) eqn:E.
      * right. apply andb_true_iff in E as [E _]. apply State_eqb_eq in E.
        cbn [Clickable_call with_state mState fired mCallbacks].
        split; [rewrite E; discriminate | reflexivity].
      * left; split; reflexivity.
  - unfold Clickable_update.
    change (mFreezed (track_shape c)) with (mFreezed c).
    change (mState (track_shape c)) with (mState c).
    destruct (mFreezed c); [left; split; reflexivity |].
    destruct (State_eqb (mState c) Idle
              && contains (mCollisionShape (track_shape c)) m) eqn:E.
    + right. apply andb_true_iff in E as [E _]. apply State_eqb_eq in E.
      cbn [Clickable_call with_state mState fired mCallbacks track_shape with_shape].
      split; [rewrite E; discriminate | reflexivity].
    + destruct (State_eqb (mState c) Hover
                && negb (contains (mCollisionShape (track_shape c)) m)) eqn:E'.
      * right. apply andb_true_iff in E' as [E' _]. apply State_eqb_eq in E'.
        cbn [Clickable_call with_state mState fired mCallbacks track_shape with_shape].
        split; [rewrite E'; discriminate | reflexivity].
      * left; split; reflexivity.
Qed.

Lemma no_press_call_keeps_out_of_Hit (c : Clickable T) (k : FrameCall) :
  mState c <> Hit -> no_primary_press k = true -> mState (apply_call c k) <> Hit.
Proof.
  intros NH NP. destruct k as [e | m]; cbn [apply_call no_primary_press] in *.
  - unfold Clickable_handleEvent. unfold primary_press in NP.
    destruct (mFreezed c); [exact NH |].
    destruct (EventType_eqb (type e) MouseButtonPressed).
    + cbn [andb] in NP. apply negb_true_iff in NP. rewrite NP, andb_false_r.
      exact NH.
    + destruct (EventType_eqb (type e) MouseButtonReleased); [| exact NH].
      destruct (State_eqb (mState c) Hit
                && MouseButton_eqb (mouseButton_button e) Left); [| exact NH].
      discriminate.
  - destruct (mFreezed c) eqn:F.
    + rewrite (frozen_update c m F). exact NH.
    + rewrite (unfrozen_update_state c m F).
      destruct (mState c), (pointer_inside c m); cbn [update_state];
        discriminate || exact NH.
Qed.

(** X3. Without a press of the primary button the widget never becomes
    pressed: from Idle or Hover, no sequence of the other events and of
    updates reaches Hit. *)
Theorem Hit_needs_primary_press (ks : list FrameCall) (c : Clickable T) :
  Clickable_state c <> Hit ->
  forallb no_primary_press ks = true ->
  Clickable_state (run_calls c ks) <> Hit.
Proof.
  unfold Clickable_state, run_calls. revert c.
  induction ks as [| k ks IH]; intros c NH NP; cbn [fold_left]; [exact NH |].
  cbn [forallb] in NP. apply andb_true_iff in NP as [Nk Nks].
  apply IH; [| exact Nks]. exact (no_press_call_keeps_out_of_Hit c k NH Nk).
Qed.

(** X4. After [update] an unfrozen widget that is not pressed is in Hover
    exactly when the pointer is inside its collision shape, and in Idle
    otherwise, whichever of the two it was in. *)
Theorem hover_iff_pointer_inside (c : Clickable T) (mouse : Vector2i) :
  Clickable_freezed c = false ->
  Clickable_state c <> Hit ->
  (Clickable_state (Clickable_update c mouse) = Hover <-> pointer_inside c mouse = true)
  /\ (Clickable_state (Clickable_update c mouse) = Idle <-> pointer_inside c mouse = false).
Proof.
  unfold Clickable_freezed, Clickable_state. intros F NH.
  rewrite (unfrozen_update_state c mouse F).
  destruct (mState c), (pointer_inside c mouse); cbn [update_state];
    try contradiction; split; split; intro; congruence.
Qed.

(** X5. [freeze] and [unfreeze] fire no callback, even when [freeze]
    changes the state; a second [freeze] overrides the first; and freezing
    an unfrozen widget in the state it is in and unfreezing it gives the
    widget back. *)
Theorem freeze_unfreeze_round_trip (c : Clickable T) (s1 s2 : State) :
  fired (Clickable_freeze s1 c) = fired c
  /\ fired (Clickable_unfreeze c) = fired c
  /\ Clickable_freeze s2 (Clickable_freeze s1 c) = Clickable_freeze s2 c
  /\ Clickable_state (Clickable_unfreeze (Clickable_freeze s1 c)) = s1
  /\ (Clickable_freezed c = false ->
      Clickable_unfreeze (Clickable_freeze (Clickable_state c) c) = c).
Proof.
  repeat split.
  unfold Clickable_freezed, Clickable_state. intros F.
  destruct c as [wt sh st cb fr fi]. cbn in F. subst fr. reflexivity.
Qed.

End MachineFacts.

(** X3, witness: a hovered knob receives releases, a press of the right
    button and updates. *)
Lemma Hit_needs_primary_press_witness :
  Clickable_state
    (run_calls hovering_knob_base
       [CallHandleEvent (sample_event MouseButtonPressed Right);
        CallUpdate (point 3 4);
        CallHandleEvent (sample_event MouseButtonReleased Left);
        CallUpdate (point 300 4)]) <> Hit.
Proof.
  apply Hit_needs_primary_press.
  - vm_compute. discriminate.
  - vm_compute. reflexivity.
Defined.

(** X4, witness: the pointer leaves a hovered knob. *)
Lemma hover_iff_pointer_inside_witness :
  pointer_inside hovering_knob_base (point 300 4) = false
  /\ Clickable_state (Clickable_update hovering_knob_base (point 300 4)) = Idle.
Proof.
  assert (I : pointer_inside hovering_knob_base (point 300 4) = false)
    by (vm_compute; reflexivity).
  split; [exact I |].
  assert (F : Clickable_freezed hovering_knob_base = false) by (vm_compute; reflexivity).
  assert (NH : Clickable_state hovering_knob_base <> Hit) by (vm_compute; discriminate).
  apply (proj2 (@hover_iff_pointer_inside _ _ _ hovering_knob_base (point 300 4) F NH)).
  exact I.
Defined.

(** X5, witness: a fresh knob frozen in Idle and unfrozen again. *)
Lemma freeze_unfreeze_round_trip_witness :
  Clickable_unfreeze (Clickable_freeze Idle (Clickable_new sample_circle))
  = Clickable_new sample_circle.
Proof.
  destruct (@freeze_unfreeze_round_trip _ (Clickable_new sample_circle) Idle Idle)
    as (_ & _ & _ & _ & R).
  exact (R eq_refl).
Defined.

(** ** Further properties of containment *)

Lemma binary_round_aux_sign (prec emax : Z) (s : bool) (m e : Z) (l : location) :
  match binary_round_aux prec emax s m e l with
  | S754_zero s' | S754_infinity s' | S754_finite s' _ _ => s' = s
  | S754_nan => True
  end.
Proof.
  unfold binary_round_aux.
  destruct (shr_fexp prec emax m e l) as [mrs' e'].
  destruct (shr_fexp prec emax _ e' loc_Exact) as [mrs'' e''].
  destruct (shr_m mrs''); [reflexivity | | exact I].
  destruct (e'' <=? emax - prec); reflexivity.
Qed.

Lemma binary_round_aux_not_negative (prec emax : Z) (m e : Z) (l : location) :
  not_negative (binary_round_aux prec emax false m e l) = true.
Proof.
  pose proof (binary_round_aux_sign prec emax false m e l) as S.
  destruct (binary_round_aux prec emax false m e l); try subst; reflexivity.
Qed.

Lemma sqrt_not_negative (x : spec_float) : not_negative (F64.sqrt x) = true.
Proof.
  unfold F64.sqrt, SFsqrt.
  destruct x as [s | [] | | [] m e]; try reflexivity.
  destruct (SFsqrt_core_binary F64.prec F64.emax (Z.pos m) e) as [[mz ez] lz].
  apply binary_round_aux_not_negative.
Qed.

Lemma to_float_not_negative (x : spec_float) :
  not_negative x = true -> not_negative (F64.to_float x) = true.
Proof.
  destruct x as [s | s | | s m e]; cbn [F64.to_float]; try (intros E; exact E).
  destruct s; [discriminate |]. intros _.
  unfold binary_round.
  destruct (shl_align m e _) as [mz ez].
  apply binary_round_aux_not_negative.
Qed.

(** The distance is never negative. *)
Lemma distance_not_negative (a : Vector2i) (b : Vector2f) :
  not_negative (distance a b) = true.
Proof. unfold distance. apply to_float_not_negative, sqrt_not_negative. Qed.

Lemma below_means_positive (d r : float) :
  not_negative d = true -> F32.ltb d r = true -> F32.ltb F32.zero r = true.
Proof.
  unfold F32.ltb, SFltb.
  destruct d as [sd | [] | | [] md ed]; try discriminate; intros _;
    destruct r as [sr | [] | | [] mr er]; simpl; try discriminate; reflexivity.
Qed.

(** X6. A circle whose radius is not positive (zero, negative or NaN)
    contains no point; a widget on such a circle, as a default-constructed
    Knob is, that is Idle stays Idle and fires nothing whatever events and
    pointer positions it is given. *)
Theorem null_circle_is_never_entered
    (c : Clickable CircleShape) (ks : list FrameCall) (p : Vector2i) :
  F32.ltb F32.zero (getRadius (Clickable_collisionShape c)) = false ->
  contains (Clickable_collisionShape c) p = false
  /\ (Clickable_state c = Idle ->
      Clickable_state (run_calls c ks) = Idle /\ fired (run_calls c ks) = fired c).
Proof.
  unfold Clickable_collisionShape, Clickable_state.
  assert (N : forall (sh : CircleShape) q,
             F32.ltb F32.zero (getRadius sh) = false -> contains sh q = false).
  { intros sh q R. cbn [contains Collidable_CircleShape]. unfold contains_circle.
    destruct (F32.ltb (distance q (getPosition sh)) (getRadius sh)) eqn:E;
      [| reflexivity].
    rewrite (below_means_positive _ _ (distance_not_negative q (getPosition sh)) E) in R.
    discriminate. }
  intros R. split; [exact (N _ p R) |].
  unfold run_calls. revert c R.
  induction ks as [| k ks IH]; intros c R Hs; cbn [fold_left]; [auto |].
  assert (K : mState (apply_call c k) = Idle
              /\ fired (apply_call c k) = fired c
              /\ getRadius (mCollisionShape (apply_call c k))
                 = getRadius (mCollisionShape c)).
  { destruct k as [e | m]; cbn [apply_call].
    - unfold Clickable_handleEvent. rewrite Hs. cbn [State_eqb andb].
      destruct (mFreezed c), (EventType_eqb (type e) MouseButtonPressed),
        (EventType_eqb (type e) MouseButtonReleased); auto.
    - unfold Clickable_update.
      change (mState (track_shape c)) with (mState c). rewrite Hs.
      rewrite (N (mCollisionShape (track_shape c)) m) by exact R.
      cbn [State_eqb andb].
      destruct (mFreezed (track_shape c)); auto. }
  destruct K as (Ks & Kf & Kr).
  rewrite <- Kf. apply IH; [rewrite Kr; exact R | exact Ks].
Qed.

(** X6, witness: the base of a default-constructed Knob. *)
Lemma null_circle_is_never_entered_witness :
  contains CircleShape_default (point 0 0) = false
  /\ Clickable_state
       (run_calls (Clickable_new CircleShape_default)
          [CallUpdate (point 0 0);
           CallHandleEvent (sample_event MouseButtonPressed Left);
           CallUpdate (point 0 0)]) = Idle.
Proof.
  destruct (@null_circle_is_never_entered (Clickable_new CircleShape_default)
              [CallUpdate (point 0 0);
               CallHandleEvent (sample_event MouseButtonPressed Left);
               CallUpdate (point 0 0)] (point 0 0) eq_refl) as (C & R).
  split; [exact C | exact (proj1 (R eq_refl))].
Defined.

(** ** Further properties of the values *)

(** X7. The clamp [fmax(-1.f, fmin(v, 1.f))] keeps a value exactly when it
    is in [-1, 1]; NaN and everything from 1 upwards go to 1, everything
    from -1 downwards goes to -1. *)
Theorem clamp_fixes_exactly_the_range (v : float) :
  (clamp v = v <-> in_range v = true)
  /\ clamp S754_nan = F32.one
  /\ (F32.leb F32.one v = true -> clamp v = F32.one)
  /\ (F32.leb v F32.minus_one = true -> clamp v = F32.minus_one).
Proof.
  split; [| split; [reflexivity | split]].
  - split.
    + intros E. rewrite <- E. apply clamp_in_range.
    + apply clamp_of_in_range.
  - intros H1.
    assert (Hn : F32.is_nan v = false) by (destruct v; [reflexivity .. | discriminate | reflexivity]).
    unfold clamp, F32.fmin. rewrite Hn.
    change (F32.is_nan F32.one) with false; cbv iota.
    destruct (F32.leb v F32.one) eqn:Hle; [| reflexivity].
    rewrite (leb_antisym_finite v _ _ _ Hle H1). reflexivity.
  - intros H1.
    assert (Hn : F32.is_nan v = false) by (destruct v; [reflexivity .. | discriminate | reflexivity]).
    assert (Hle : F32.leb v F32.one = true).
    { revert H1. destruct v as [s | [] | | [] m e]; try discriminate; reflexivity. }
    unfold clamp, F32.fmin. rewrite Hn.
    change (F32.is_nan F32.one) with false; cbv iota. rewrite Hle.
    unfold F32.fmax.
    change (F32.is_nan F32.minus_one) with false; cbv iota. rewrite Hn, H1.
    reflexivity.
Qed.

(** X7, witness: 5 is clamped to 1 and one half is kept. *)
Lemma clamp_fixes_exactly_the_range_witness :
  clamp five = F32.one /\ clamp F32.half = F32.half.
Proof.
  split.
  - apply (clamp_fixes_exactly_the_range five). reflexivity.
  - apply (clamp_fixes_exactly_the_range F32.half). reflexivity.
Defined.

Lemma Knob_handleEvent_quiet (k : Knob) (e : Event) :
  State_eqb (Clickable_state (Clickable_handleEvent (Knob_base k) e)) Hover
  && EventType_eqb (type e) MouseWheelScrolled
  && MouseWheel_eqb (mouseWheelScroll_wheel e) VerticalWheel = false ->
  State_eqb (Clickable_state (Clickable_handleEvent (Knob_base k) e)) Hit
  && negb (EventType_eqb (type e) MouseButtonPressed) = false ->
  Knob_value (Knob_handleEvent k e) = clamp (Knob_value k).
Proof.
  intros H1 H2. unfold Knob_value, Knob_handleEvent. cbn [Knob_mValue].
  rewrite H1, H2. reflexivity.
Qed.

Lemma release_leaves_Hit {T : Type} (c : Clickable T) (e : Event) :
  primary_release e = true -> mFreezed c = false ->
  State_eqb (Clickable_state (Clickable_handleEvent c e)) Hit = false.
Proof.
  unfold primary_release, Clickable_state, Clickable_handleEvent.
  intros Hr F. apply andb_true_iff in Hr as [Ht Hb]. rewrite F.
  destruct (type e); try discriminate. cbn [EventType_eqb]. rewrite Hb.
  destruct (mState c) eqn:E; cbn [State_eqb andb]; try rewrite E; reflexivity.
Qed.

Lemma Idle_ignores_events {T : Type} (c : Clickable T) (e : Event) :
  mState c = Idle -> Clickable_state (Clickable_handleEvent c e) = Idle.
Proof.
  unfold Clickable_state, Clickable_handleEvent. intros Hs.
  rewrite Hs. cbn [State_eqb andb].
  destruct (mFreezed c), (EventType_eqb (type e) MouseButtonPressed),
    (EventType_eqb (type e) MouseButtonReleased); exact Hs.
Qed.

(** X8. [Knob::handleEvent] does not move the value on a button press, on
    the release of the primary button of an unfrozen Knob, or on any event
    while the Knob is Idle: it only clamps it, so a value in [-1, 1] is
    kept as it is. *)
Theorem Knob_value_kept_by_buttons (k : Knob) (e : Event) :
  type e = MouseButtonPressed
  \/ (primary_release e = true /\ Clickable_freezed (Knob_base k) = false)
  \/ Clickable_state (Knob_base k) = Idle ->
  Knob_value (Knob_handleEvent k e) = clamp (Knob_value k)
  /\ (in_range (Knob_value k) = true ->
      Knob_value (Knob_handleEvent k e) = Knob_value k).
Proof.
  intros C.
  assert (E : Knob_value (Knob_handleEvent k e) = clamp (Knob_value k)).
  { apply Knob_handleEvent_quiet.
    - destruct C as [Ht | [[Hr F] | Hs]].
      + rewrite Ht. cbn [EventType_eqb]. rewrite andb_false_r. reflexivity.
      + unfold primary_release in Hr. apply andb_true_iff in Hr as [Ht _].
        destruct (type e); try discriminate. cbn [EventType_eqb].
        rewrite andb_false_r. reflexivity.
      + rewrite (Idle_ignores_events (Knob_base k) e Hs). reflexivity.
    - destruct C as [Ht | [[Hr F] | Hs]].
      + rewrite Ht. cbn [EventType_eqb negb]. apply andb_false_r.
      + rewrite (release_leaves_Hit (Knob_base k) e Hr F). reflexivity.
      + rewrite (Idle_ignores_events (Knob_base k) e Hs). reflexivity. }
  split; [exact E |].
  intros R. rewrite E. apply clamp_of_in_range. exact R.
Qed.

(** X8, witness: a hovered knob at value 0 is pressed. *)
Lemma Knob_value_kept_by_buttons_witness :
  Knob_value
    (Knob_handleEvent
       {| Knob_base := hovering_knob_base; Knob_mSprite := sample_sprite;
          Knob_mValue := F32.zero; mPreviousMouseY := F32.of_Z 40 |}
       (sample_event MouseButtonPressed Left)) = F32.zero.
Proof.
  apply Knob_value_kept_by_buttons.
  - left. reflexivity.
  - vm_compute. reflexivity.
Defined.

(** X9. [Slider::update] moves the value only while the Slider is pressed:
    in Idle or Hover, frozen or not, it clamps the value and nothing more,
    whatever the pointer, so a value in [-1, 1] is kept as it is; and the
    inherited [handleEvent] never changes the value. *)
Theorem Slider_value_moves_only_while_pressed
    (s : Slider) (mouse : Vector2i) (s' : Slider) (e : Event) :
  Slider_state s <> Hit ->
  Slider_update s mouse = Done s' ->
  Slider_mValue s' = clamp (Slider_mValue s)
  /\ (in_range (Slider_mValue s) = true -> Slider_mValue s' = Slider_mValue s)
  /\ Slider_state s' <> Hit
  /\ Slider_mValue (Slider_handleEvent s e) = Slider_mValue s.
Proof.
  unfold Slider_state, Clickable_state. intros NH U.
  destruct (Slider_update_Done s mouse U) as (_ & _ & Hb & _ & _ & (v0 & Hv & Hv0) & _).
  pose proof (no_press_call_keeps_out_of_Hit (Slider_base s) (CallUpdate mouse) NH eq_refl)
    as NH'.
  cbn [apply_call] in NH'.
  assert (E : Slider_mValue s' = clamp (Slider_mValue s)).
  { rewrite Hv. f_equal. apply Hv0. exact NH'. }
  split; [exact E |]. split.
  - intros R. rewrite E. apply clamp_of_in_range. exact R.
  - split; [rewrite Hb; exact NH' | reflexivity].
Qed.

(** X9, witness: the pointer hovers over a slider at value 0. *)
Lemma Slider_value_moves_only_while_pressed_witness :
  exists s', Slider_update sample_slider (point 30 5) = Done s'
             /\ Slider_mValue s' = F32.zero.
Proof.
  destruct (Slider_update sample_slider (point 30 5)) as [s' | |] eqn:U;
    [| vm_compute in U; discriminate ..].
  exists s'. split; [reflexivity |].
  assert (NH : Slider_state sample_slider <> Hit) by (vm_compute; discriminate).
  destruct (@Slider_value_moves_only_while_pressed sample_slider (point 30 5) s'
              (sample_event MouseMoved Left) NH U) as (_ & K & _).
  exact (K eq_refl).
Defined.

(** X10. [Slider::update] reads the size of the texture without a test: on
    an initialized Slider whose sprite has no texture it dereferences a
    null pointer, where [Knob::update] stops on an assertion; and a texture
    of width zero makes both divide by zero. *)
Theorem update_without_texture (s : Slider) (k : Knob) (mouse : Vector2i) (h : Z) :
  Slider_mInitialized s = true ->
  (getTexture (Slider_mSprite s) = None -> Slider_update s mouse = Undefined)
  /\ (getTexture (Slider_mSprite s) = Some {| ux := 0; uy := h |} ->
      Slider_update s mouse = Undefined)
  /\ (getTexture (Knob_mSprite k) = None -> Knob_update k mouse = AssertFailed)
  /\ (getTexture (Knob_mSprite k) = Some {| ux := 0; uy := h |} ->
      Knob_update k mouse = Undefined).
Proof.
  intros I. unfold Slider_update, Knob_update, Knob_textureRect.
  rewrite I. cbn [assert obind Knob_mSprite]. rewrite sprite_texture_tracked.
  repeat split; intros Tx; rewrite Tx; reflexivity.
Qed.

(** X10, witness: a Slider and a Knob built on [sf::Sprite()]. *)
Lemma update_without_texture_witness :
  Slider_update bare_slider (point 0 0) = Undefined
  /\ Knob_update bare_knob (point 0 0) = AssertFailed.
Proof.
  destruct (@update_without_texture bare_slider bare_knob (point 0 0) 0 eq_refl)
    as (S & _ & K & _).
  split; [exact (S eq_refl) | exact (K eq_refl)].
Defined.

(** ** Further properties of LineEdit *)

Lemma to_char_ascii (sgn : bool) (u : Z) : 0 <= u <= 127 -> to_char sgn u = u.
Proof.
  intros R. unfold to_char. rewrite Z.mod_small by lia.
  replace (128 <=? u) with false by (symmetry; apply Z.leb_gt; lia).
  rewrite andb_false_r. reflexivity.
Qed.

(** X11. On a hovered LineEdit a text event carrying a code from 32 to 127
    appends exactly that code, on every platform, and one carrying a control
    code (below 32, as the text events of Backspace and Enter do) leaves
    the buffer as it is. *)
Theorem LineEdit_accepts_ascii (sgn : bool) (l : LineEdit) (e : Event) :
  LineEdit_mInitialized l = true ->
  LineEdit_state l = Hover ->
  type e = TextEntered ->
  exists l',
    LineEdit_handleEvent sgn l e = Done l'
    /\ (32 <= text_unicode e <= 127 ->
        LineEdit_string l' = Done (getString (mText l) ++ [text_unicode e]))
    /\ (0 <= text_unicode e < 32 ->
        LineEdit_string l' = Done (getString (mText l))).
Proof.
  intros I Hs Ht.
  destruct (LineEdit_text_entered sgn l e I Hs Ht) as (l' & E & _ & S).
  exists l'. split; [exact E |]. split; intros R; rewrite S;
    rewrite (@to_char_ascii sgn (text_unicode e)) by lia.
  - replace (32 <=? text_unicode e) with true by (symmetry; apply Z.leb_le; lia).
    reflexivity.
  - replace (32 <=? text_unicode e) with false by (symmetry; apply Z.leb_gt; lia).
    reflexivity.
Qed.

(** X11, witness: the letter 'H' and the text event of Backspace. *)
Lemma LineEdit_accepts_ascii_witness :
  (exists l', LineEdit_handleEvent true hovering_lineedit (text_entered 72) = Done l'
              /\ LineEdit_string l' = Done [72])
  /\ (exists l', LineEdit_handleEvent true hovering_lineedit (text_entered 8) = Done l'
                 /\ LineEdit_string l' = Done []).
Proof.
  assert (I : LineEdit_mInitialized hovering_lineedit = true) by (vm_compute; reflexivity).
  assert (Hs : LineEdit_state hovering_lineedit = Hover) by (vm_compute; reflexivity).
  split.
  - destruct (@LineEdit_accepts_ascii true hovering_lineedit (text_entered 72) I Hs eq_refl)
      as (l' & E & A & _).
    exists l'. split; [exact E |]. apply A. cbn. lia.
  - destruct (@LineEdit_accepts_ascii true hovering_lineedit (text_entered 8) I Hs eq_refl)
      as (l' & E & _ & A).
    exists l'. split; [exact E |]. apply A. cbn. lia.
Defined.

(** X12. [LineEdit::handleEvent] changes the buffer only on a hovered
    LineEdit and only for text and key events: a LineEdit that is Idle or
    pressed ignores typing, and so does a hovered one every other event;
    and whatever the event, the buffer is kept, gains the code of the event
    at its end, or loses its last code. *)
Theorem LineEdit_edits_only_when_hovered
    (sgn : bool) (l : LineEdit) (e : Event) (l' : LineEdit) :
  LineEdit_handleEvent sgn l e = Done l' ->
  (LineEdit_state l <> Hover \/ (type e <> TextEntered /\ type e <> KeyPressed) ->
   getString (mText l') = getString (mText l))
  /\ (getString (mText l') = getString (mText l)
      \/ getString (mText l') = getString (mText l) ++ [text_unicode e]
      \/ getString (mText l') = removelast (getString (mText l))).
Proof.
  unfold LineEdit_handleEvent, LineEdit_state, Clickable_state.
  destruct (LineEdit_mInitialized l); cbn [assert obind]; [| discriminate].
  destruct (State_eqb (mState (Clickable_handleEvent (LineEdit_base l) e)) Hover) eqn:SH.
  - destruct (EventType_eqb (type e) TextEntered) eqn:TE.
    + assert (Ht : type e = TextEntered) by (destruct (type e); discriminate || reflexivity).
      rewrite Ht. cbn [EventType_eqb andb].
      rewrite (Clickable_handleEvent_other (LineEdit_base l) e) in SH
        by (rewrite Ht; reflexivity).
      apply State_eqb_eq in SH.
      intros E. injection E as <-. cbn [mText]. split.
      * intros [NH | [NT _]]; contradiction.
      * destruct (32 <=? to_char sgn (text_unicode e)); cbn [setString getString]; auto.
    + cbn [andb].
      destruct (EventType_eqb (type e) KeyPressed) eqn:KP.
      * assert (Ht : type e = KeyPressed) by (destruct (type e); discriminate || reflexivity).
        rewrite (Clickable_handleEvent_other (LineEdit_base l) e) in SH
          by (rewrite Ht; reflexivity).
        apply State_eqb_eq in SH.
        intros E. injection E as <-. cbn [mText]. split.
        -- intros [NH | [_ NK]]; contradiction.
        -- destruct ((key_code e =? Keyboard_Backspace)
                     && (0 <? Z.of_nat (length (getString (mText l)))));
             cbn [setString getString]; auto.
      * intros E. injection E as <-. cbn [mText]. auto.
  - intros E. injection E as <-. cbn [LineEdit_with_base mText]. auto.
Qed.

(** X12, witness: the letter 'H' typed at a LineEdit the pointer is not on. *)
Lemma LineEdit_edits_only_when_hovered_witness :
  exists l', LineEdit_handleEvent true sample_lineedit (text_entered 72) = Done l'
             /\ getString (mText l') = [].
Proof.
  destruct (LineEdit_handleEvent true sample_lineedit (text_entered 72)) as [l' | |] eqn:E;
    [| vm_compute in E; discriminate ..].
  exists l'. split; [reflexivity |].
  destruct (@LineEdit_edits_only_when_hovered true sample_lineedit (text_entered 72) l' E)
    as (K & _).
  apply K. left. vm_compute. discriminate.
Defined.

(** X13. [setString] then [string] gives the string back, unfiltered, and
    [update] does not touch it; [setString] leaves the state alone. *)
Theorem LineEdit_setString_then_string (l : LineEdit) (s : list Z) (mouse : Vector2i) :
  LineEdit_mInitialized l = true ->
  exists l' l'',
    LineEdit_setString l s = Done l'
    /\ LineEdit_string l' = Done s
    /\ LineEdit_state l' = LineEdit_state l
    /\ LineEdit_update l' mouse = Done l''
    /\ LineEdit_string l'' = Done s.
Proof.
  intros I.
  destruct l as [base init text]. cbn [LineEdit_mInitialized] in I. subst init.
  do 2 eexists. repeat split.
Qed.

(** X13, witness: a string with a control code. *)
Lemma LineEdit_setString_then_string_witness :
  exists l', LineEdit_setString sample_lineedit [72; 9; 105] = Done l'
             /\ LineEdit_string l' = Done [72; 9; 105].
Proof.
  destruct (@LineEdit_setString_then_string sample_lineedit [72; 9; 105] (point 0 0) eq_refl)
    as (l' & _ & E & S & _).
  exists l'. split; [exact E | exact S].
Defined.

(** ** Button *)

Lemma handleEvent_keeps_shape {T : Type} (c : Clickable T) (e : Event) :
  mCollisionShape (Clickable_handleEvent c e) = mCollisionShape c
  /\ widget_transform (Clickable_handleEvent c e) = widget_transform c.
Proof.
  unfold Clickable_handleEvent.
  destruct (mFreezed c); [split; reflexivity |].
  destruct (EventType_eqb (type e) MouseButtonPressed).
  - destruct (State_eqb (mState c) Hover
              && MouseButton_eqb (mouseButton_button e) Left); split; reflexivity.
  - destruct (EventType_eqb (type e) MouseButtonReleased); [| split; reflexivity].
    destruct (State_eqb (mState c) Hit
              && MouseButton_eqb (mouseButton_button e) Left); split; reflexivity.
Qed.

(** Placing a sprite that is already placed changes nothing. *)
Lemma sprite_placed_twice (p s : Vector2f) (sp : Sprite) :
  centerOrigin (setScale s (setPosition p (centerOrigin (setScale s (setPosition p sp)))))
  = centerOrigin (setScale s (setPosition p sp)).
Proof. reflexivity. Qed.

(** X14. After [Button::update] each of the three sprites has the position
    and the scale of the widget and its origin at the centre of its local
    bounds, with texture and texture rectangle untouched; and [draw] shows
    the sprite of the state the button is in. *)
Theorem Button_update_places_sprites (b : Button) (mouse : Vector2i) (st : State) :
  let b' := Button_update b mouse in
  getPosition (Button_sprite b' st) = position (widget_transform (Button_base b))
  /\ getScale (Button_sprite b' st) = scale (widget_transform (Button_base b))
  /\ getOrigin (Button_sprite b' st) = centre_of (getLocalBounds (Button_sprite b st))
  /\ getTexture (Button_sprite b' st) = getTexture (Button_sprite b st)
  /\ getTextureRect (Button_sprite b' st) = getTextureRect (Button_sprite b st)
  /\ Button_draw b' = Button_sprite b' (Clickable_state (Button_base b')).
Proof.
  intros b'. unfold b', Button_update, Button_sprite, Button_draw, Button_state.
  cbn [mSprites Button_base].
  destruct (update_shape (Button_base b) mouse) as (_ & -> & _).
  destruct st; repeat split.
Qed.

Lemma Button_call_keeps_shape (b : Button) (c : ButtonCall) :
  mCollisionShape (Button_base b) = sprite_Idle (mSprites b) ->
  mCollisionShape (Button_base (Button_call b c))
  = sprite_Idle (mSprites (Button_call b c)).
Proof.
  intros I. destruct c as [e | m]; cbn [Button_call].
  - unfold Button_handleEvent. cbn [Button_base mSprites].
    rewrite (proj1 (handleEvent_keeps_shape (Button_base b) e)). exact I.
  - unfold Button_update. cbn [Button_base mSprites sprite_Idle].
    destruct (update_shape (Button_base b) m) as (-> & -> & _).
    unfold track_shape. cbn [with_shape mCollisionShape]. rewrite I. reflexivity.
Qed.

(** X15. The region a Button is tested against is the idle sprite as it is
    drawn: from construction on, whatever events and updates follow, the
    collision shape equals the sprite of the idle state. *)
Theorem Button_shape_is_idle_sprite (idle hover hit : Sprite) (cs : list ButtonCall) :
  Clickable_collisionShape (Button_base (Button_run (Button_new idle hover hit) cs))
  = Button_sprite (Button_run (Button_new idle hover hit) cs) Idle.
Proof.
  unfold Clickable_collisionShape, Button_sprite, Button_run. cbn [sprite_at].
  assert (G : forall b, mCollisionShape (Button_base b) = sprite_Idle (mSprites b) ->
                        mCollisionShape (Button_base (fold_left Button_call cs b))
                        = sprite_Idle (mSprites (fold_left Button_call cs b))).
  { induction cs as [| c cs IH]; intros b I; cbn [fold_left]; [exact I |].
    apply IH. apply Button_call_keeps_shape. exact I. }
  apply G. reflexivity.
Qed.

Lemma update_enters {T : Type} `{Bounded T} `{Collidable T}
    (c : Clickable T) (m : Vector2i) :
  mFreezed c = false -> mState c = Idle -> pointer_inside c m = true ->
  Clickable_update c m = Clickable_call (with_state Hover (track_shape c)).
Proof.
  intros F S I. unfold Clickable_update.
  change (mFreezed (track_shape c)) with (mFreezed c).
  change (mState (track_shape c)) with (mState c).
  unfold pointer_inside in I. rewrite F, S, I. reflexivity.
Qed.

Lemma update_leaves {T : Type} `{Bounded T} `{Collidable T}
    (c : Clickable T) (m : Vector2i) :
  mFreezed c = false -> mState c = Hover -> pointer_inside c m = false ->
  Clickable_update c m = Clickable_call (with_state Idle (track_shape c)).
Proof.
  intros F S I. unfold Clickable_update.
  change (mFreezed (track_shape c)) with (mFreezed c).
  change (mState (track_shape c)) with (mState c).
  unfold pointer_inside in I. rewrite F, S, I. reflexivity.
Qed.

Lemma press_hits {T : Type} (c : Clickable T) (e : Event) :
  mFreezed c = false -> mState c = Hover -> primary_press e = true ->
  Clickable_handleEvent c e = Clickable_call (with_state Hit c).
Proof.
  unfold primary_press. intros F S P. apply andb_true_iff in P as [Pt Pb].
  unfold Clickable_handleEvent. rewrite F, Pt, S, Pb. reflexivity.
Qed.

Lemma release_hovers {T : Type} (c : Clickable T) (e : Event) :
  mFreezed c = false -> mState c = Hit -> primary_release e = true ->
  Clickable_handleEvent c e = Clickable_call (with_state Hover c).
Proof.
  unfold primary_release. intros F S P. apply andb_true_iff in P as [Pt Pb].
  unfold Clickable_handleEvent. rewrite F.
  destruct (type e); try discriminate. cbn [EventType_eqb]. rewrite S, Pb.
  reflexivity.
Qed.

(** X16. A click on a Button: the pointer enters, the primary button is
    pressed and released, the pointer leaves.  The states are Hover, Hit,
    Hover, Idle; the callbacks fired are, in this order and once each, those
    bound to Hover, Hit, Hover and Idle; and [draw] shows after each step
    the sprite of that state. *)
Theorem Button_click_cycle
    (b : Button) (m_in m_out : Vector2i) (press release : Event) :
  Clickable_freezed (Button_base b) = false ->
  Button_state b = Idle ->
  pointer_inside (Button_base b) m_in = true ->
  pointer_inside (Button_base b) m_out = false ->
  primary_press press = true ->
  primary_release release = true ->
  let b1 := Button_update b m_in in
  let b2 := Button_handleEvent b1 press in
  let b3 := Button_handleEvent b2 release in
  let b4 := Button_update b3 m_out in
  (Button_state b1 = Hover /\ Button_draw b1 = Button_sprite b1 Hover)
  /\ (Button_state b2 = Hit /\ Button_draw b2 = Button_sprite b1 Hit)
  /\ (Button_state b3 = Hover /\ Button_draw b3 = Button_sprite b1 Hover)
  /\ (Button_state b4 = Idle /\ Button_draw b4 = Button_sprite b1 Idle)
  /\ fired (Button_base b4)
     = fired (Button_base b)
       ++ [Clickable_callback (Button_base b) Hover;
           Clickable_callback (Button_base b) Hit;
           Clickable_callback (Button_base b) Hover;
           Clickable_callback (Button_base b) Idle].
Proof.
  intros F S Iin Iout P R b1 b2 b3 b4.
  unfold Clickable_freezed, Button_state, Clickable_state in F, S.
  assert (E1 : Button_base b1
               = Clickable_call (with_state Hover (track_shape (Button_base b)))).
  { unfold b1, Button_update. cbn [Button_base].
    apply update_enters; assumption. }
  assert (E2 : Button_base b2 = Clickable_call (with_state Hit (Button_base b1))).
  { unfold b2, Button_handleEvent. cbn [Button_base].
    apply press_hits; [rewrite E1; exact F | rewrite E1; reflexivity | exact P]. }
  assert (E3 : Button_base b3 = Clickable_call (with_state Hover (Button_base b2))).
  { unfold b3, Button_handleEvent. cbn [Button_base].
    apply release_hovers;
      [rewrite E2, E1; exact F | rewrite E2; reflexivity | exact R]. }
  assert (E4 : Button_base b4
               = Clickable_call (with_state Idle (track_shape (Button_base b3)))).
  { unfold b4, Button_update. cbn [Button_base].
    apply update_leaves.
    - rewrite E3, E2, E1. exact F.
    - rewrite E3. reflexivity.
    - rewrite <- Iout. unfold pointer_inside. rewrite E3, E2, E1.
      unfold track_shape.
      cbn [Clickable_call with_state with_shape mCollisionShape widget_transform].
      rewrite sprite_placed_twice. reflexivity. }
  assert (M2 : mSprites b2 = mSprites b1) by reflexivity.
  assert (M3 : mSprites b3 = mSprites b1) by reflexivity.
  assert (M4 : mSprites b4 = mSprites b1).
  { unfold b4, Button_update. cbn [mSprites].
    destruct (update_shape (Button_base b3) m_out) as (_ & -> & _).
    rewrite M3, E3, E2, E1.
    cbn [widget_transform Clickable_call with_state track_shape with_shape].
    unfold b1, Button_update. cbn [mSprites sprite_Idle sprite_Hover sprite_Hit].
    destruct (update_shape (Button_base b) m_in) as (_ & -> & _).
    rewrite !sprite_placed_twice. reflexivity. }
  unfold Button_draw, Button_sprite, Button_state, Clickable_state.
  rewrite M2, M3, M4, E4, E3, E2, E1.
  cbn [Clickable_call with_state track_shape with_shape mState fired mCallbacks
       sprite_at].
  unfold Clickable_callback.
  repeat split.
  repeat rewrite <- app_assoc. reflexivity.
Qed.

(** X16, witness: a click on a button of 32 by 32 at the origin. *)
Lemma Button_click_cycle_witness :
  Button_state
    (Button_update
       (Button_handleEvent
          (Button_handleEvent (Button_update sample_button (point 3 4))
             (sample_event MouseButtonPressed Left))
          (sample_event MouseButtonReleased Left))
       (point 300 4)) = Idle.
Proof.
  assert (F : Clickable_freezed (Button_base sample_button) = false)
    by (vm_compute; reflexivity).
  assert (S0 : Button_state sample_button = Idle) by (vm_compute; reflexivity).
  assert (I1 : pointer_inside (Button_base sample_button) (point 3 4) = true)
    by (vm_compute; reflexivity).
  assert (I2 : pointer_inside (Button_base sample_button) (point 300 4) = false)
    by (vm_compute; reflexivity).
  destruct (@Button_click_cycle sample_button (point 3 4) (point 300 4)
              (sample_event MouseButtonPressed Left)
              (sample_event MouseButtonReleased Left) F S0 I1 I2 eq_refl eq_refl)
    as (_ & _ & _ & (S4 & _) & _).
  exact S4.
Defined.

(** ** Geometry *)

Section GeometryFacts.

Context {T : Type} `{Bounded T} `{Collidable T}.

(** X17. [centerOrigin] moves the origin to the corner of the local bounds
    plus half of their truncated extent and touches nothing else: position,
    scale and local bounds are as before, and centring twice is centring
    once. *)
Theorem centerOrigin_changes_only_origin (L : LawfulBounded T) (o : T) :
  getOrigin (centerOrigin o) = centre_of (getLocalBounds o)
  /\ getPosition (centerOrigin o) = getPosition o
  /\ getScale (centerOrigin o) = getScale o
  /\ getLocalBounds (centerOrigin o) = getLocalBounds o
  /\ getTransformable (centerOrigin (centerOrigin o)) = getTransformable (centerOrigin o).
Proof.
  unfold centerOrigin, setOrigin, getOrigin, getPosition, getScale, centre_of.
  repeat rewrite ?get_set_transformable, ?bounds_set_transformable.
  cbn [position scale origin]. repeat split.
Qed.

Lemma shape_tracked_twice (L : LawfulBounded T)
    (set_set : forall (t t' : Transformable) (o : T),
        setTransformable t (setTransformable t' o) = setTransformable t o)
    (p s : Vector2f) (sh : T) :
  centerOrigin (setScale s (setPosition p (centerOrigin (setScale s (setPosition p sh)))))
  = centerOrigin (setScale s (setPosition p sh)).
Proof.
  unfold centerOrigin, setOrigin, setScale, setPosition.
  repeat rewrite ?get_set_transformable, ?bounds_set_transformable, ?set_set.
  cbn [position scale origin]. reflexivity.
Qed.

(** X18. [update] settles at once: a second [update] with the pointer at
    the same place leaves the widget exactly as the first one did, so it
    fires no further callback. *)
Theorem update_twice_is_update_once
    (L : LawfulBounded T)
    (set_set : forall (t t' : Transformable) (o : T),
        setTransformable t (setTransformable t' o) = setTransformable t o)
    (c : Clickable T) (mouse : Vector2i) :
  Clickable_update (Clickable_update c mouse) mouse = Clickable_update c mouse.
Proof.
  destruct c as [wt sh st cb fr fi].
  unfold Clickable_update, track_shape, with_shape, Clickable_call, with_state.
  cbn [widget_transform mCollisionShape mState mCallbacks mFreezed fired].
  destruct fr.
  - cbn [widget_transform mCollisionShape mState mCallbacks mFreezed fired].
    rewrite (shape_tracked_twice L set_set). reflexivity.
  - destruct st; cbn [State_eqb andb];
      destruct (contains
                  (centerOrigin (setScale (scale wt) (setPosition (position wt) sh)))
                  mouse) eqn:I;
      cbn [widget_transform mCollisionShape mState mCallbacks mFreezed fired
           State_eqb andb negb];
      rewrite ?(shape_tracked_twice L set_set), ?I;
      cbn [State_eqb andb negb]; reflexivity.
Qed.

End GeometryFacts.

(** X17, witness: bounds of 5 by 3 are centred at (2, 1), the halves being
    taken of the truncated extents. *)
Lemma centerOrigin_changes_only_origin_witness :
  getOrigin
    (centerOrigin (RectangleShape_new {| vx := F32.of_Z 5; vy := F32.of_Z 3 |}))
  = {| vx := F32.of_Z 2; vy := F32.of_Z 1 |}.
Proof.
  etransitivity.
  - apply (centerOrigin_changes_only_origin LawfulBounded_RectangleShape).
  - vm_compute. reflexivity.
Defined.

(** X18, witness: the pointer rests on a knob for two frames. *)
Lemma update_twice_is_update_once_witness :
  Clickable_update (Clickable_update (Clickable_new sample_circle) (point 3 4)) (point 3 4)
  = Clickable_update (Clickable_new sample_circle) (point 3 4)
  /\ fired (Clickable_update (Clickable_new sample_circle) (point 3 4)) = [Noop].
Proof.
  split.
  - apply (update_twice_is_update_once LawfulBounded_CircleShape).
    intros t t' o. reflexivity.
  - vm_compute. reflexivity.
Defined.

(** X19. Where the sprite is centred.  [Knob::update] selects the frame
    first and centres the sprite on it; [Slider::update] centres the sprite
    first, on the texture rectangle the previous call left, and selects the
    frame afterwards.  Both give the sprite the position and scale of the
    widget. *)
Theorem sprite_origin_after_update
    (k : Knob) (s : Slider) (mouse : Vector2i) (k' : Knob) (s' : Slider) :
  Knob_update k mouse = Done k' ->
  Slider_update s mouse = Done s' ->
  (getOrigin (Knob_mSprite k') = centre_of (getLocalBounds (Knob_mSprite k'))
   /\ getPosition (Knob_mSprite k') = position (widget_transform (Knob_base k))
   /\ getScale (Knob_mSprite k') = scale (widget_transform (Knob_base k)))
  /\ (getOrigin (Slider_mSprite s') = centre_of (getLocalBounds (Slider_mSprite s))
      /\ getPosition (Slider_mSprite s') = position (widget_transform (Slider_base s))
      /\ getScale (Slider_mSprite s') = scale (widget_transform (Slider_base s))).
Proof.
  intros UK US. split.
  - revert UK. unfold Knob_update, Knob_textureRect. cbn [Knob_mSprite Knob_mValue].
    destruct (getTexture (Knob_mSprite k)) as [size |]; cbn [obind]; [| discriminate].
    destruct (sheet_rect size (clamp (Knob_mValue k))) as [rect | |];
      cbn [obind]; try discriminate.
    intros E. injection E as <-. cbn [Knob_mSprite].
    destruct (update_shape (Knob_base k) mouse) as (_ & -> & _).
    repeat split.
  - revert US. unfold Slider_update.
    destruct (Slider_mInitialized s); cbn [assert obind]; [| discriminate].
    rewrite sprite_texture_tracked.
    destruct (getTexture (Slider_mSprite s)) as [size |]; [| discriminate].
    destruct (sheet_rect size _) as [rect | |]; cbn [obind]; try discriminate.
    intros E. injection E as <-. cbn [Slider_mSprite].
    destruct (update_shape (Slider_base s) mouse) as (_ & -> & _).
    repeat split.
Qed.

(** X19, witness: a Slider and a Knob whose sprites show the whole sheet of
    32 by 160 before the first update: the Knob's sprite is centred at
    (16, 16), the Slider's at (16, 80). *)
Lemma sprite_origin_after_update_witness :
  exists k' s',
    Knob_update
      {| Knob_base := Clickable_new sample_circle;
         Knob_mSprite :=
           setTextureRect {| ileft := 0; itop := 0; iwidth := 32; iheight := 160 |}
             sample_sprite;
         Knob_mValue := F32.zero; mPreviousMouseY := F32.zero |} (point 0 0) = Done k'
    /\ Slider_update
         (Slider_new sample_rectangle
            (setTextureRect {| ileft := 0; itop := 0; iwidth := 32; iheight := 160 |}
               sample_sprite) Horizontal) (point 0 0) = Done s'
    /\ getOrigin (Knob_mSprite k') = {| vx := F32.of_Z 16; vy := F32.of_Z 16 |}
    /\ getOrigin (Slider_mSprite s') = {| vx := F32.of_Z 16; vy := F32.of_Z 80 |}.
Proof.
  destruct (Knob_update
      {| Knob_base := Clickable_new sample_circle;
         Knob_mSprite :=
           setTextureRect {| ileft := 0; itop := 0; iwidth := 32; iheight := 160 |}
             sample_sprite;
         Knob_mValue := F32.zero; mPreviousMouseY := F32.zero |} (point 0 0))
    as [k' | |] eqn:UK; [| vm_compute in UK; discriminate ..].
  destruct (Slider_update
         (Slider_new sample_rectangle
            (setTextureRect {| ileft := 0; itop := 0; iwidth := 32; iheight := 160 |}
               sample_sprite) Horizontal) (point 0 0))
    as [s' | |] eqn:US; [| vm_compute in US; discriminate ..].
  exists k', s'. split; [reflexivity |]. split; [reflexivity |].
  destruct (sprite_origin_after_update _ _ _ UK US) as ((OK & _) & (OS & _)).
  split.
  - rewrite OK. vm_compute in UK. injection UK as <-. vm_compute. reflexivity.
  - rewrite OS. vm_compute. reflexivity.
Defined.

(** ** A frozen LineEdit *)

Lemma not_hovered_keeps_buffer (sgn : bool) (l : LineEdit) (e : Event) (l' : LineEdit) :
  LineEdit_handleEvent sgn l e = Done l' ->
  LineEdit_state l <> Hover ->
  getString (mText l') = getString (mText l).
Proof.
  unfold LineEdit_handleEvent, LineEdit_state, Clickable_state.
  destruct (LineEdit_mInitialized l); cbn [assert obind]; [| discriminate].
  destruct (State_eqb (mState (Clickable_handleEvent (LineEdit_base l) e)) Hover) eqn:SH.
  - destruct (EventType_eqb (type e) MouseButtonPressed) eqn:P.
    + assert (Ht : type e = MouseButtonPressed)
        by (destruct (type e); discriminate || reflexivity).
      rewrite Ht. cbn [EventType_eqb andb].
      intros E NH. injection E as <-. reflexivity.
    + destruct (EventType_eqb (type e) MouseButtonReleased) eqn:R.
      * assert (Ht : type e = MouseButtonReleased)
          by (destruct (type e); discriminate || reflexivity).
        rewrite Ht. cbn [EventType_eqb andb].
        intros E NH. injection E as <-. reflexivity.
      * rewrite (Clickable_handleEvent_other (LineEdit_base l) e P R) in SH.
        apply State_eqb_eq in SH. intros _ NH. contradiction.
  - intros E _. injection E as <-. reflexivity.
Qed.

Lemma frozen_LineEdit_call (sgn : bool) (l : LineEdit) (c : LineEditCall) (l' : LineEdit) :
  Clickable_freezed (LineEdit_base l) = true ->
  LineEdit_call sgn l c = Done l' ->
  Clickable_freezed (LineEdit_base l') = true
  /\ LineEdit_state l' = LineEdit_state l
  /\ (LineEdit_state l <> Hover -> not_setString c = true ->
      getString (mText l') = getString (mText l)).
Proof.
  unfold Clickable_freezed, LineEdit_state, Clickable_state. intros F.
  destruct c as [e | m | s]; cbn [LineEdit_call not_setString].
  - intros E.
    assert (B : LineEdit_base l' = LineEdit_base l).
    { revert E. unfold LineEdit_handleEvent.
      destruct (LineEdit_mInitialized l); cbn [assert obind]; [| discriminate].
      rewrite (frozen_handleEvent (LineEdit_base l) e F).
      destruct (State_eqb (Clickable_state (LineEdit_base l)) Hover);
        intros E; injection E as <-; reflexivity. }
    rewrite B. repeat split; try assumption.
    intros NH _.
    exact (@not_hovered_keeps_buffer sgn l e l' E NH).
  - unfold LineEdit_update.
    destruct (LineEdit_mInitialized l); cbn [assert obind]; [| discriminate].
    intros E; injection E as <-. cbn [LineEdit_base mText].
    rewrite (frozen_update (LineEdit_base l) m F). repeat split; assumption.
  - unfold LineEdit_setString.
    destruct (LineEdit_mInitialized l); cbn [assert obind]; [| discriminate].
    intros E; injection E as <-. cbn [LineEdit_base mText].
    repeat split; try assumption. discriminate.
Qed.

Lemma LineEdit_call_initialized (sgn : bool) (l : LineEdit) (c : LineEditCall)
    (l' : LineEdit) :
  LineEdit_call sgn l c = Done l' ->
  LineEdit_mInitialized l' = LineEdit_mInitialized l.
Proof.
  destruct c as [e | m | s]; cbn [LineEdit_call];
    unfold LineEdit_handleEvent, LineEdit_update, LineEdit_setString;
    destruct (LineEdit_mInitialized l) eqn:I; cbn [assert obind]; try discriminate.
  - destruct (State_eqb (Clickable_state (Clickable_handleEvent (LineEdit_base l) e)) Hover);
      intros E; injection E as <-; cbn [LineEdit_with_base LineEdit_mInitialized];
      try rewrite I; reflexivity.
  - intros E; injection E as <-. reflexivity.
  - intros E; injection E as <-. reflexivity.
Qed.

(** X20. A frozen LineEdit keeps its state through every call; when it is
    frozen in Idle or Hit, no sequence of events and updates changes the
    buffer: only [setString] does. *)
Theorem frozen_LineEdit_is_read_only
    (sgn : bool) (cs : list LineEditCall) (l l' : LineEdit) :
  Clickable_freezed (LineEdit_base l) = true ->
  LineEdit_run sgn l cs = Done l' ->
  Clickable_freezed (LineEdit_base l') = true
  /\ LineEdit_state l' = LineEdit_state l
  /\ (LineEdit_state l <> Hover -> forallb not_setString cs = true ->
      LineEdit_string l' = LineEdit_string l).
Proof.
  revert l. induction cs as [| c cs IH]; intros l F; cbn [LineEdit_run].
  - intros E; injection E as <-. repeat split; assumption.
  - destruct (LineEdit_call sgn l c) as [l1 | |] eqn:C; cbn [obind]; try discriminate.
    intros E.
    destruct (frozen_LineEdit_call sgn l c F C) as (F1 & S1 & T1).
    destruct (IH l1 F1 E) as (F' & S' & T').
    split; [exact F' |]. split; [congruence |].
    intros NH NS. cbn [forallb] in NS. apply andb_true_iff in NS as [Nc Ncs].
    rewrite (T' ltac:(rewrite S1; exact NH) Ncs).
    unfold LineEdit_string. rewrite (T1 NH Nc).
    rewrite (LineEdit_call_initialized sgn l c C). reflexivity.
Qed.

(** X20, witness: a text field disabled with [freeze(Idle)]. *)
Lemma frozen_LineEdit_is_read_only_witness :
  exists l',
    LineEdit_run true (LineEdit_freeze Idle sample_lineedit)
      [LineEditUpdate (point 0 0); LineEditHandleEvent (text_entered 72);
       LineEditHandleEvent (key_pressed Keyboard_Backspace)] = Done l'
    /\ LineEdit_string l' = Done [].
Proof.
  destruct (LineEdit_run true (LineEdit_freeze Idle sample_lineedit)
      [LineEditUpdate (point 0 0); LineEditHandleEvent (text_entered 72);
       LineEditHandleEvent (key_pressed Keyboard_Backspace)]) as [l' | |] eqn:R;
    [| vm_compute in R; discriminate ..].
  exists l'. split; [reflexivity |].
  destruct (@frozen_LineEdit_is_read_only true
              [LineEditUpdate (point 0 0); LineEditHandleEvent (text_entered 72);
               LineEditHandleEvent (key_pressed Keyboard_Backspace)]
              (LineEdit_freeze Idle sample_lineedit) l' eq_refl R) as (_ & _ & K).
  rewrite K; [reflexivity | vm_compute; discriminate | reflexivity].
Defined.
